(** * Esita chat widget: the send lifecycle of [frontend/src/Chatbot.jsx]

    The file holds two variants of one React component.  Both share the text
    classifier ([normalize], [isNameQuestion], [isCreatorQuestion]) and the
    history view ([historyForServer]); they differ in [send]: the first
    (module [V1]) calls [fetch] directly, the second (module [V2]) goes
    through [fetchWithTimeout].

    [send] is an event handler closed over the values of one render
    ([input], [sending], [historyForServer]).  It is embedded as a function
    of that render and of what the network does with the request, and it
    yields the state updates, timers and requests the handler issues, in
    the order it issues them, together with the way it completes.  The
    updates are then applied to a state by [run].  Handlers run one at a
    time and React renders between two events, so the render a handler
    closes over is the state it starts from. *)

From Stdlib Require Import List String Ascii Bool ZArith NArith Lia.
From Stdlib Require Import DecimalString.
Import ListNotations.
Open Scope string_scope.
Open Scope list_scope.

(** ** Strings

    A JavaScript string is held as the UTF-8 bytes of its text.  Substring
    search on well-formed text is the same on either encoding. *)

Definition utf8 (bytes : list nat) : string :=
  string_of_list_ascii (map ascii_of_nat bytes).

(** [String.prototype.toLowerCase]: the letters A-Z are mapped; bytes of
    characters outside ASCII are kept as they are. *)
Definition lower (c : ascii) : ascii :=
  let n := nat_of_ascii c in
  if (65 <=? n)%nat && (n <=? 90)%nat then ascii_of_nat (n + 32) else c.

Fixpoint toLowerCase (s : string) : string :=
  match s with
  | EmptyString => EmptyString
  | String c r => String (lower c) (toLowerCase r)
  end.

(** ECMAScript WhiteSpace and LineTerminator, each as its UTF-8 bytes:
    TAB LF VT FF CR SP, NBSP, U+1680, U+2000..U+200A, U+2028, U+2029,
    U+202F, U+205F, U+3000, U+FEFF. *)
Definition white_space : list string :=
  map utf8
    [ [9]; [10]; [11]; [12]; [13]; [32]; [194; 160]; [225; 154; 128];
      [226; 128; 128]; [226; 128; 129]; [226; 128; 130]; [226; 128; 131];
      [226; 128; 132]; [226; 128; 133]; [226; 128; 134]; [226; 128; 135];
      [226; 128; 136]; [226; 128; 137]; [226; 128; 138];
      [226; 128; 168]; [226; 128; 169]; [226; 128; 175];
      [226; 129; 159]; [227; 128; 128]; [239; 187; 191] ]%nat.

Fixpoint drop (n : nat) (s : string) : string :=
  match n, s with
  | S k, String _ r => drop k r
  | _, _ => s
  end.

(** The rest of [s] after one leading character of [ws], if it has one. *)
Fixpoint strip (ws : list string) (s : string) : option string :=
  match ws with
  | [] => None
  | w :: ws' => if prefix w s then Some (drop (length w) s) else strip ws' s
  end.

Fixpoint trim_from (ws : list string) (fuel : nat) (s : string) : string :=
  match fuel with
  | O => s
  | S k => match strip ws s with
           | Some r => trim_from ws k r
           | None => s
           end
  end.

Definition reverse (s : string) : string :=
  string_of_list_ascii (rev (list_ascii_of_string s)).

Definition trimStart (s : string) : string :=
  trim_from white_space (length s) s.

Definition trimEnd (s : string) : string :=
  reverse (trim_from (map reverse white_space) (length s) (reverse s)).

(** [String.prototype.trim] *)
Definition trim (s : string) : string := trimEnd (trimStart s).

(** [m.includes(p)] *)
Fixpoint includes (m p : string) : bool :=
  prefix p m ||
  match m with
  | EmptyString => false
  | String _ r => includes r p
  end.

(** ** Text classifier (lines 7-30 and 299-322, the same in both variants) *)

Definition normalize (s : string) : string := trim (toLowerCase s).

Definition isNameQuestion (msg : string) : bool :=
  let m := normalize msg in
  includes m "your name" ||
  includes m "ur name" ||
  (m =? "name") ||
  includes m "what is your name" ||
  includes m "who are you".

Definition isCreatorQuestion (msg : string) : bool :=
  let m := normalize msg in
  includes m "who created you" ||
  includes m "who made you" ||
  includes m "your creator" ||
  includes m "who built you".

(** ** JavaScript values

    What [r.json()] yields, and what property reads on it yield.  The number
    type of the platform and its two conversions are left open. *)

Class Numeric : Type := {
  number : Type;
  number_truthy : number -> bool;
  number_toString : number -> string
}.

Section Values.
Context {num : Numeric}.

(** [JObj] lists the own properties of an object. *)
#[warnings="-register-all"]
Inductive value : Type :=
| JUndefined
| JNull
| JBool (b : bool)
| JNum (n : number)
| JStr (s : string)
| JArr (items : list value)
| JObj (fields : list (string * value)).

(** ToBoolean, as used by [if], [!], [||]. *)
Definition truthy (v : value) : bool :=
  match v with
  | JUndefined | JNull => false
  | JBool b => b
  | JNum n => number_truthy n
  | JStr s => negb (s =? "")
  | JArr _ | JObj _ => true
  end.

Fixpoint own (k : string) (fields : list (string * value)) : option value :=
  match fields with
  | [] => None
  | (k', v) :: rest => if k' =? k then Some v else own k rest
  end.

(** [v?.k] for a name [k] that no built-in prototype defines ([reply] and
    [error] are such names): the own property of an object, [undefined]
    otherwise, and [undefined] as well on [null] and [undefined]. *)
Definition get (v : value) (k : string) : value :=
  match v with
  | JObj fields => match own k fields with Some x => x | None => JUndefined end
  | _ => JUndefined
  end.

(** [a || b] *)
Definition or_else (a b : value) : value := if truthy a then a else b.

(** [a ?? b] *)
Definition nullish (a b : value) : value :=
  match a with
  | JUndefined | JNull => b
  | _ => a
  end.

(** ToString, as a template literal applies it; [None] is the TypeError
    raised for an object that cannot be converted to a primitive (an own
    [toString] property of a parsed object is never callable).  Arrays go
    through [Array.prototype.join]. *)
Fixpoint toString (v : value) : option string :=
  match v with
  | JUndefined => Some "undefined"
  | JNull => Some "null"
  | JBool b => Some (if b then "true" else "false")
  | JNum n => Some (number_toString n)
  | JStr s => Some s
  | JArr items =>
      option_map (concat ",")
        (fold_right
           (fun x acc =>
              match match x with
                    | JUndefined | JNull => Some ""
                    | _ => toString x
                    end, acc with
              | Some s, Some l => Some (s :: l)
              | _, _ => None
              end)
           (Some []) items)
  | JObj fields =>
      match own "toString" fields with
      | Some _ => None
      | None => Some "[object Object]"
      end
  end.

(** ** Messages and component state *)

Record Message : Type := { role : string; text : value }.

Record State : Type := {
  online : bool;
  input : string;
  sending : bool;
  messages : list Message
}.

(** [useState] initial values (lines 114-120, 412-418). *)
Definition initial : State :=
  {| online := true;
     input := "";
     sending := false;
     messages :=
       [ {| role := "assistant";
            text := JStr "Hi, I'm Esita. How can I help you today?" |} ] |}.

(** [Array.prototype.slice(start)] *)
Definition slice {A : Type} (start : Z) (l : list A) : list A :=
  let len := Z.of_nat (List.length l) in
  let k := if (start <? 0)%Z then Z.max (len + start) 0 else Z.min start len in
  skipn (Z.to_nat k) l.

(** [historyForServer] (lines 130-137, 440-445): a [useMemo] over
    [messages], so a function of the messages of the render. *)
Definition historyForServer (messages : list Message) : list Message :=
  map (fun m =>
         {| role := if role m =? "assistant" then "assistant" else "user";
            text := text m |})
      (slice (-10) messages).

(** ** Requests and responses *)

Record Body : Type := { message : string; history : list Message }.

(** The second argument of [fetch].  [signal] is the delay handed to the
    timer that aborts the attached AbortSignal, [None] when no signal is
    attached. *)
Record Options : Type := {
  method : string;
  headers : list (string * string);
  body : option Body;
  signal : option Z
}.

(** A response: its status and what [r.json()] gives ([None]: it rejects,
    the body is not JSON). *)
Record Response : Type := { status : N; json_body : option value }.

(** [r.ok] *)
Definition ok (r : Response) : bool :=
  ((200 <=? status r) && (status r <=? 299))%N.

Record Error : Type := { name : string }.
Definition AbortError : Error := {| name := "AbortError" |}.
Definition TypeError : Error := {| name := "TypeError" |}.
Definition SyntaxError : Error := {| name := "SyntaxError" |}.

(** What the network does with one request: it never settles ([None]), or
    after [t] ms it delivers a response, or fails (a failed [fetch] rejects
    with a TypeError), or delivers the status line and headers of a
    response whose body then never arrives.  [fetch] settles on the
    headers; the body is read later, by [r.json()]. *)
Inductive Settled : Type :=
| Resolved (r : Response)
| Rejected
| Stalled (st : N).

(** The response object [fetch] resolves with, if it does.  For headers
    alone the body field stands for nothing: [json] never gets to it. *)
Definition delivered (x : Settled) : option Response :=
  match x with
  | Resolved r => Some r
  | Rejected => None
  | Stalled st => Some {| status := st; json_body := None |}
  end.

(** The delay [setTimeout] runs a timer with: its argument as a signed
    32-bit integer (taken modulo 2^32), a negative delay counting as 0. *)
Definition timer_delay (ms : Z) : Z :=
  Z.max 0 ((ms + 2147483648) mod 4294967296 - 2147483648).

Definition Network : Type := option (Z * Settled).

(** ** Effects

    What the handler does, in order.  [setMessages] is always called with
    an updater [prev => [...prev, m]]; the object [m] is built when React
    runs the updater, not when [setMessages] is called, so the action holds
    it unevaluated: [None] when building it raises. *)
Inductive action : Type :=
| SetMessages (m : option Message)
| SetInput (s : string)
| SetSending (b : bool)
| SetOnline (b : bool)
| SetTimeout (ms : Z)
| ClearTimeout
| Fetch (url : string) (o : Options).

(** The state a render sees after the updates; [None] when an updater
    raised, which fails the render and unmounts the component. *)
Definition apply (a : action) (s : State) : option State :=
  match a with
  | SetMessages (Some m) =>
      Some {| online := online s; input := input s; sending := sending s;
              messages := messages s ++ [m] |}
  | SetMessages None => None
  | SetInput i =>
      Some {| online := online s; input := i; sending := sending s;
              messages := messages s |}
  | SetSending b =>
      Some {| online := online s; input := input s; sending := b;
              messages := messages s |}
  | SetOnline b =>
      Some {| online := b; input := input s; sending := sending s;
              messages := messages s |}
  | SetTimeout _ | ClearTimeout | Fetch _ _ => Some s
  end.

Fixpoint run (t : list action) (s : State) : option State :=
  match t with
  | [] => Some s
  | a :: t' => match apply a s with
               | Some s' => run t' s'
               | None => None
               end
  end.

(** How a piece of the handler completes: normally, by raising, or never
    (suspended at an [await] that does not settle). *)
Inductive completion (A : Type) : Type :=
| Normal (a : A)
| Throw (e : Error)
| Pending.
Arguments Normal {A} a.
Arguments Throw {A} e.
Arguments Pending {A}.

Definition Js (A : Type) : Type := (list action * completion A)%type.

Definition ret {A : Type} (a : A) : Js A := ([], Normal a).

Definition bind {A B : Type} (m : Js A) (f : A -> Js B) : Js B :=
  match m with
  | (t, Normal a) => let (t', c) := f a in (t ++ t', c)
  | (t, Throw e) => (t, Throw e)
  | (t, Pending) => (t, Pending)
  end.

Definition emit (a : action) : Js unit := ([a], Normal tt).

Definition throw {A : Type} (e : Error) : Js A := ([], Throw e).

(** [try { m } catch (e) { h e }] *)
Definition try_catch {A : Type} (m : Js A) (h : Error -> Js A) : Js A :=
  match m with
  | (t, Throw e) => let (t', c) := h e in (t ++ t', c)
  | _ => m
  end.

(** [try { m } finally { f }] *)
Definition try_finally {A : Type} (m : Js A) (f : Js unit) : Js A :=
  match m with
  | (t, Pending) => (t, Pending)
  | (t, c) =>
      match f with
      | (t', Normal _) => (t ++ t', c)
      | (t', Throw e) => (t ++ t', Throw e)
      | (t', Pending) => (t ++ t', Pending)
      end
  end.

Definition setMessages (m : option Message) : Js unit := emit (SetMessages m).
Definition setInput (s : string) : Js unit := emit (SetInput s).
Definition setSending (b : bool) : Js unit := emit (SetSending b).
Definition setOnline (b : bool) : Js unit := emit (SetOnline b).

(** [await fetch(url, o)] against the network [net].  A signal whose
    timer fires no later than the request settles rejects it with an
    AbortError. *)
Definition fetch (net : Network) (url : string) (o : Options) : Js Response :=
  ([Fetch url o],
   match net, signal o with
   | None, None => Pending
   | None, Some _ => Throw AbortError
   | Some (t, w), sig =>
       if match sig with
          | Some ms => (timer_delay ms <=? t)%Z
          | None => false
          end
       then Throw AbortError
       else match delivered w with
            | Some r => Normal r
            | None => Throw TypeError
            end
   end).

(** [await r.json()] on the response [r] that [fetch] gave against the
    network [net]: it stays pending when the body never arrives, and no
    timer bounds it. *)
Definition json (net : Network) (r : Response) : Js value :=
  match net with
  | Some (_, Stalled _) => ([], Pending)
  | _ =>
      match json_body r with
      | Some v => ret v
      | None => throw SyntaxError
      end
  end.

(** [v.k], which raises on [null] and [undefined]. *)
Definition member (v : value) (k : string) : option value :=
  match v with
  | JUndefined | JNull => None
  | _ => Some (get v k)
  end.

Definition assistant (t : value) : Message :=
  {| role := "assistant"; text := t |}.

Definition user (t : string) : Message :=
  {| role := "user"; text := JStr t |}.

End Values.

Arguments Normal {A} a.
Arguments Throw {A} e.
Arguments Pending {A}.

Declare Scope js_scope.
Delimit Scope js_scope with js.
Notation "x <- m ;; k" := (bind m (fun x => k))
  (at level 100, m at next level, right associativity) : js_scope.
Notation "m ;; k" := (bind m (fun _ => k))
  (at level 100, right associativity) : js_scope.

Definition decimal (n : N) : string := NilZero.string_of_uint (N.to_uint n).

(** [`${prefix}${v}`] where reading [v] or converting it may raise. *)
Definition template {num : Numeric} (prefix : string) (v : option value)
  : option string :=
  match v with
  | Some x => option_map (fun s => (prefix ++ s)%string) (toString x)
  | None => None
  end.

(** ** First variant (lines 1-288) *)

Module V1.
Section Send.
Context {num : Numeric}.

Definition API_BASE : string := "http://127.0.0.1:8000".

(** The fixed replies of lines 151 and 159, and the text of line 192. *)
Definition creator_text : string := "Sweetyseleena created me. 👑".
Definition identity_text : string := "I'm Esita 🤖".
Definition connection_text : string := "Connection error. Please try again.".

(** [send] (lines 139-197).  [c] is the render the handler closes over. *)
Definition send (c : State) (net : Network) : Js unit :=
  let text := trim (input c) in
  if (text =? "") || sending c then ret tt
  else
    (setMessages (Some (user text)) ;;
     setInput "" ;;
     if isCreatorQuestion text then
       setMessages (Some (assistant (JStr creator_text)))
     else if isNameQuestion text then
       setMessages (Some (assistant (JStr identity_text)))
     else
       (setSending true ;;
        try_finally
          (try_catch
             (r <- fetch net (API_BASE ++ "/api/chat")%string
                     {| method := "POST";
                        headers := [("Content-Type", "application/json")];
                        body := Some {| message := text;
                                        history := historyForServer (messages c) |};
                        signal := None |} ;;
              data <- json net r ;;
              (if truthy (get data "error") then
                 setMessages
                   (option_map (fun s => assistant (JStr s))
                      (template "❌ " (member data "error")))
               else
                 setMessages
                   (option_map (fun v => assistant (nullish v (JStr "No reply.")))
                      (member data "reply"))) ;;
              setOnline true)
             (fun e =>
                setOnline false ;;
                setMessages (Some (assistant (JStr connection_text)))))
          (setSending false)))%js.

End Send.
End V1.

(** ** Second variant (lines 289-664) *)

Module V2.
Section Send.
Context {num : Numeric}.

(** [s.replace(/\/$/, "")] *)
Definition strip_slash (s : string) : string :=
  match reverse s with
  | String "/"%char r => reverse r
  | _ => s
  end.

(** [API_BASE] (lines 295-297); the argument is
    [import.meta.env.VITE_API_URL], [None] when it is not defined. *)
Definition API_BASE (VITE_API_URL : option string) : string :=
  let fallback := "https://esita-chatbot.onrender.com" in
  match VITE_API_URL with
  | Some u => let b := strip_slash u in if b =? "" then fallback else b
  | None => fallback
  end.

(** [fetchWithTimeout] (lines 400-409): a timer set with [ms] aborts the
    signal; the timer is cleared on every exit, so as soon as [fetch]
    settles on the headers of a response. *)
Definition fetchWithTimeout (net : Network) (url : string) (options : Options)
    (ms : Z) : Js Response :=
  (emit (SetTimeout ms) ;;
   try_finally
     (fetch net url
        {| method := method options; headers := headers options;
           body := body options; signal := Some ms |})
     (emit ClearTimeout))%js.

(** The health check on mount (lines 429-438); the options object is
    empty, so the method is GET and there is no body. *)
Definition health_probe (VITE_API_URL : option string) (net : Network)
  : Js unit :=
  try_catch
    (r <- fetchWithTimeout net (API_BASE VITE_API_URL ++ "/health")%string
            {| method := "GET"; headers := []; body := None; signal := None |}
            15000 ;;
     setOnline (ok r))%js
    (fun _ => setOnline false).

(** The fixed replies of lines 459 and 467, and the texts of lines
    507, 514 and 515. *)
Definition creator_text : string := "Sweetyseleena created me. ðŸ‘‘".
Definition identity_text : string := "I'm Esita ðŸ¤–".
Definition no_reply_text : string := "No reply.".
Definition timeout_text : string :=
  "Request timed out (Render sleeping or slow). Try again.".
Definition connection_text : string := "Connection error. Please try again.".

(** [send] (lines 447-521).  [c] is the render the handler closes over. *)
Definition send (VITE_API_URL : option string) (c : State) (net : Network)
  : Js unit :=
  let text := trim (input c) in
  if (text =? "") || sending c then ret tt
  else
    (setMessages (Some (user text)) ;;
     setInput "" ;;
     if isCreatorQuestion text then
       setMessages (Some (assistant (JStr creator_text)))
     else if isNameQuestion text then
       setMessages (Some (assistant (JStr identity_text)))
     else
       (setSending true ;;
        try_finally
          (try_catch
             (r <- fetchWithTimeout net
                     (API_BASE VITE_API_URL ++ "/api/chat")%string
                     {| method := "POST";
                        headers := [("Content-Type", "application/json")];
                        body := Some {| message := text;
                                        history := historyForServer (messages c) |};
                        signal := None |}
                     45000 ;;
              data <- try_catch (json net r) (fun _ => ret JNull) ;;
              if negb (ok r) then
                let msg :=
                  or_else (or_else (get data "reply") (get data "error"))
                    (JStr ("HTTP " ++ decimal (status r))%string) in
                setMessages
                  (option_map (fun s => assistant (JStr s))
                     (template "âŒ " (Some msg))) ;;
                setOnline false
              else if truthy (get data "reply") then
                setMessages (option_map assistant (member data "reply")) ;;
                setOnline true
              else
                setMessages (Some (assistant (JStr no_reply_text))) ;;
                setOnline true)
             (fun e =>
                let msg :=
                  if name e =? "AbortError" then timeout_text
                  else connection_text in
                setOnline false ;;
                setMessages (Some (assistant (JStr msg)))))
          (setSending false)))%js.

End Send.
End V2.

(** Integers as the numbers of a concrete platform, for evaluating the
    handlers on examples. *)
Definition integers : Numeric :=
  {| number := Z;
     number_truthy := fun n => negb (n =? 0)%Z;
     number_toString := fun n => NilZero.string_of_int (Z.to_int n) |}.

(** ** Observations on what a handler did *)

Section Observations.
Context {num : Numeric}.

(** The calls of [fetch], in order. *)
Definition requests (t : list action) : list (string * Options) :=
  flat_map (fun a => match a with Fetch u o => [(u, o)] | _ => [] end) t.

(** The arguments of the calls of [setMessages], [setSending],
    [setOnline] and [setTimeout], in order. *)
Definition appended (t : list action) : list (option Message) :=
  flat_map (fun a => match a with SetMessages m => [m] | _ => [] end) t.

Definition sendings (t : list action) : list bool :=
  flat_map (fun a => match a with SetSending b => [b] | _ => [] end) t.

Definition onlines (t : list action) : list bool :=
  flat_map (fun a => match a with SetOnline b => [b] | _ => [] end) t.

Definition timers (t : list action) : list Z :=
  flat_map (fun a => match a with SetTimeout ms => [ms] | _ => [] end) t.

(** The render [c] lets [send] through to the network: the trimmed input
    is not empty, no send is in progress, and neither classifier matches. *)
Definition goes_remote (c : State) : bool :=
  let text := trim (input c) in
  negb ((text =? "") || sending c) &&
  negb (isCreatorQuestion text) &&
  negb (isNameQuestion text).

(** The timer of [ms] fires before the request settles. *)
Definition timed_out (net : Network) (ms : Z) : bool :=
  match net with
  | None => true
  | Some (w, _) => (ms <=? w)%Z
  end.

(** The chat request of the second variant gets the headers of a
    response before its timer fires, and the body never arrives. *)
Definition body_never_arrives (net : Network) : bool :=
  match net with
  | Some (w, Stalled _) => (w <? 45000)%Z
  | _ => false
  end.

(** The response carries a reply that [send] of the second variant shows. *)
Definition usable_reply (r : Response) : bool :=
  match json_body r with
  | Some data => truthy (get data "reply")
  | None => false
  end.

(** What [data] holds in the second variant once the body was read: the
    parsed body, [null] when reading it failed. *)
Definition parsed (r : Response) : value :=
  match json_body r with
  | Some data => data
  | None => JNull
  end.

(** The text shown for a response with a non-success status: the reply
    field, else the error field, else the status code. *)
Definition failure_payload (r : Response) : value :=
  or_else (or_else (get (parsed r) "reply") (get (parsed r) "error"))
    (JStr ("HTTP " ++ decimal (status r))%string).

(** The five outcomes of a bounded chat request, as the specification
    lists them (section 4.4, step 5), each with the updates it is to cause:
    timeout, network failure, non-success status, reply, no usable reply. *)
Inductive outcome (net : Network) : list action -> Prop :=
| out_timeout :
    timed_out net 45000 = true ->
    outcome net [SetOnline false;
                 SetMessages (Some (assistant (JStr V2.timeout_text)))]
| out_network (w : Z) :
    net = Some (w, Rejected) -> (w < 45000)%Z ->
    outcome net [SetOnline false;
                 SetMessages (Some (assistant (JStr V2.connection_text)))]
| out_status (w : Z) (r : Response) :
    net = Some (w, Resolved r) -> (w < 45000)%Z -> ok r = false ->
    outcome net [SetMessages
                   (option_map (fun s => assistant (JStr s))
                      (template "âŒ " (Some (failure_payload r))));
                 SetOnline false]
| out_reply (w : Z) (r : Response) :
    net = Some (w, Resolved r) -> (w < 45000)%Z -> ok r = true ->
    usable_reply r = true ->
    outcome net [SetMessages (Some (assistant (get (parsed r) "reply")));
                 SetOnline true]
| out_empty (w : Z) (r : Response) :
    net = Some (w, Resolved r) -> (w < 45000)%Z -> ok r = true ->
    usable_reply r = false ->
    outcome net [SetMessages (Some (assistant (JStr V2.no_reply_text)));
                 SetOnline true].

(** The request the second variant issues for the render [c]. *)
Definition chat_request (env : option string) (c : State)
  : string * Options :=
  ((V2.API_BASE env ++ "/api/chat")%string,
   {| method := "POST";
      headers := [("Content-Type", "application/json")];
      body := Some {| message := trim (input c);
                      history := historyForServer (messages c) |};
      signal := Some 45000%Z |}).

(** A canned answer [reply], given locally by the handler result [r] for
    the render [c]: the user turn and one assistant turn are appended,
    nothing is fetched, [setSending] is not called. *)
Definition local_reply (c : State) (reply : string) (r : Js unit) : Prop :=
  let text := trim (input c) in
  snd r = Normal tt /\
  appended (fst r) = [Some (user text); Some (assistant (JStr reply))] /\
  requests (fst r) = [] /\
  sendings (fst r) = [] /\
  exists s, run (fst r) c = Some s /\
            messages s = messages c ++ [user text; assistant (JStr reply)] /\
            sending s = false.

End Observations.

(** ** Further observations *)

Section MoreObservations.
Context {num : Numeric}.

(** The arguments of the calls of [setInput], in order. *)
Definition inputs (t : list action) : list string :=
  flat_map (fun a => match a with SetInput i => [i] | _ => [] end) t.

(** The request the first variant issues for the render [c]. *)
Definition V1_chat_request (c : State) : string * Options :=
  ((V1.API_BASE ++ "/api/chat")%string,
   {| method := "POST";
      headers := [("Content-Type", "application/json")];
      body := Some {| message := trim (input c);
                      history := historyForServer (messages c) |};
      signal := None |}).

(** A role the component itself gives to a message. *)
Definition known_role (m : Message) : Prop :=
  role m = "user" \/ role m = "assistant".

End MoreObservations.

(** ** The handlers the second variant wires to the page *)

Section Page.
Context {num : Numeric}.

(** [onKeyDown] (lines 523-528): Enter without Shift prevents the default
    action of the key and sends; any other key does nothing.  The first
    component tells whether [preventDefault] was called. *)
Definition onKeyDown (env : option string) (key : string) (shiftKey : bool)
    (c : State) (net : Network) : bool * Js unit :=
  if (key =? "Enter") && negb shiftKey then (true, V2.send env c net)
  else (false, ret tt).

(** What can happen on the page: the text area changes (line 619), a key
    goes down in it (line 620), the button is clicked (line 628), the
    health check of the mount runs (lines 429-438).  A send or a health
    check comes with what the network does with its request. *)
Inductive event : Type :=
| Change (value : string)
| KeyDown (key : string) (shiftKey : bool) (net : Network)
| Click (net : Network)
| Mounted (net : Network).

(** The handler of an event, run on the render [c]. *)
Definition handle (env : option string) (e : event) (c : State) : Js unit :=
  match e with
  | Change value => setInput value
  | KeyDown key shiftKey net => snd (onKeyDown env key shiftKey c net)
  | Click net => V2.send env c net
  | Mounted net => V2.health_probe env net
  end.

(** The state after a sequence of events, each handled on the render the
    one before left, as far as its handler gets (to its end, or to the
    [await] it stays suspended at); [None] once a render has failed.
    While a request of this variant is pending the text area and the
    button are disabled (lines 623 and 629), so none of their handlers
    runs in between; a health check that settles in between changes
    [online] only. *)
Fixpoint session (env : option string) (es : list event) (c : State)
  : option State :=
  match es with
  | [] => Some c
  | e :: es' =>
      match run (fst (handle env e c)) c with
      | Some c' => session env es' c'
      | None => None
      end
  end.

(** The messages of a list of exchanges: each a user turn and the
    assistant turn that answers it. *)
Definition exchanges (turns : list (string * value)) : list Message :=
  flat_map (fun t => [user (fst t); assistant (snd t)]) turns.

(** How many of the messages have the role [who]. *)
Definition turns_of (who : string) (ms : list Message) : nat :=
  List.length (filter (fun m => role m =? who) ms).

(** What a list of messages added by handlers looks like: roles the
    component gives, user turns with a text, no more assistant turns than
    user turns, no more user turns than [n]. *)
Definition added_by (n : nat) (added : list Message) : Prop :=
  Forall known_role added /\
  Forall (fun m => role m = "user" -> text m <> JStr "") added /\
  (turns_of "assistant" added <= turns_of "user" added)%nat /\
  (turns_of "user" added <= n)%nat.

(** The events that call [send]. *)
Definition sends (es : list event) : nat :=
  List.length
    (filter (fun e => match e with
                      | Click _ => true
                      | KeyDown key shiftKey _ => (key =? "Enter") && negb shiftKey
                      | _ => false
                      end) es).

End Page.

(** ** Letter case and whitespace, for stating what the classifiers ignore *)

(** The other case of an ASCII letter; any other character itself. *)
Definition flip_case (c : ascii) : ascii :=
  let n := nat_of_ascii c in
  if (65 <=? n)%nat && (n <=? 90)%nat then ascii_of_nat (n + 32)
  else if (97 <=? n)%nat && (n <=? 122)%nat then ascii_of_nat (n - 32)
  else c.

(** Two texts that differ at most in the case of ASCII letters. *)
Inductive same_letters : string -> string -> Prop :=
| same_empty : same_letters "" ""
| same_next (c d : ascii) (s t : string) :
    d = c \/ d = flip_case c ->
    same_letters s t ->
    same_letters (String c s) (String d t).

(** No character of [ws] contains the byte [c]. *)
Definition clear_of (ws : list string) (c : ascii) : bool :=
  forallb (fun w => forallb (fun x => negb (Ascii.eqb x c))
                      (list_ascii_of_string w)) ws.

(** The substrings the two classifiers look for. *)
Definition creator_patterns : list string :=
  ["who created you"; "who made you"; "your creator"; "who built you"].

Definition name_patterns : list string :=
  ["your name"; "ur name"; "what is your name"; "who are you"].

(** ** Example renders *)

Definition typed (i : string) : @State integers :=
  {| online := online (@initial integers); input := i; sending := false;
     messages := messages (@initial integers) |}.

Definition hello : @State integers := typed "hello".

(** A response with status [st] and JSON body [data], 100 ms after the
    request. *)
Definition replied (st : N) (data : @value integers) : @Network integers :=
  Some (100%Z, Resolved {| status := st; json_body := Some data |}).

(** The headers of a response with status 200, 100 ms after the
    request, and a body that never arrives. *)
Definition headers_only : @Network integers := Some (100%Z, Stalled 200).

(** A response with status [st] whose body is [data], as a record. *)
Definition answer (st : N) (data : @value integers) : @Response integers :=
  {| status := st; json_body := Some data |}.

(** A session: "hello" typed and sent by a click, answered; then a Creator
    question typed and sent with Enter; then Shift+Enter on an empty
    input. *)
Definition example_session : list (@event integers) :=
  [ Mounted (replied 200 (JObj []));
    Change "hello";
    Click (replied 200 (JObj [("reply", JStr "Hi there!")]));
    Change "Who made you?";
    KeyDown "Enter" false None;
    KeyDown "Enter" true None ].

Definition example_session_end : @State integers :=
  {| online := true; input := ""; sending := false;
     messages := messages (@initial integers) ++
                 @exchanges integers [("hello", JStr "Hi there!");
                            ("Who made you?", JStr V2.creator_text)] |}.

Arguments trim : simpl never.
Arguments isCreatorQuestion : simpl never.
Arguments isNameQuestion : simpl never.
Arguments historyForServer : simpl never.
Arguments V2.API_BASE : simpl never.
Arguments decimal : simpl never.
Arguments toString : simpl never.
Arguments String.append : simpl never.
Arguments timer_delay : simpl never.

(** * Properties *)

Section Properties.
Context {num : Numeric}.

Lemma classifier_needs_text (text : string) :
  isCreatorQuestion text = true \/ isNameQuestion text = true ->
  (text =? "") = false.
Proof.
  intros H. destruct (text =? "") eqn:E; [|reflexivity].
  apply String.eqb_eq in E. subst text.
  destruct H as [H|H]; vm_compute in H; discriminate.
Qed.

Lemma goes_remote_inv (c : State) :
  goes_remote c = true ->
  (trim (input c) =? "") = false /\ sending c = false /\
  isCreatorQuestion (trim (input c)) = false /\
  isNameQuestion (trim (input c)) = false.
Proof.
  unfold goes_remote. intros H.
  apply andb_true_iff in H. destruct H as [H Hn].
  apply andb_true_iff in H. destruct H as [Hg Hc].
  apply negb_true_iff in Hg, Hc, Hn.
  apply orb_false_iff in Hg. tauto.
Qed.

Lemma V1_send_creator (c : State) (net : Network) :
  sending c = false -> isCreatorQuestion (trim (input c)) = true ->
  V1.send c net =
  ([SetMessages (Some (user (trim (input c)))); SetInput "";
    SetMessages (Some (assistant (JStr V1.creator_text)))], Normal tt).
Proof.
  intros Hs Hc. unfold V1.send.
  rewrite (classifier_needs_text _ (or_introl Hc)), Hs, Hc. reflexivity.
Qed.

Lemma V2_send_creator (env : option string) (c : State) (net : Network) :
  sending c = false -> isCreatorQuestion (trim (input c)) = true ->
  V2.send env c net =
  ([SetMessages (Some (user (trim (input c)))); SetInput "";
    SetMessages (Some (assistant (JStr V2.creator_text)))], Normal tt).
Proof.
  intros Hs Hc. unfold V2.send.
  rewrite (classifier_needs_text _ (or_introl Hc)), Hs, Hc. reflexivity.
Qed.

Lemma V1_send_identity (c : State) (net : Network) :
  sending c = false -> isCreatorQuestion (trim (input c)) = false ->
  isNameQuestion (trim (input c)) = true ->
  V1.send c net =
  ([SetMessages (Some (user (trim (input c)))); SetInput "";
    SetMessages (Some (assistant (JStr V1.identity_text)))], Normal tt).
Proof.
  intros Hs Hc Hn. unfold V1.send.
  rewrite (classifier_needs_text _ (or_intror Hn)), Hs, Hc, Hn. reflexivity.
Qed.

Lemma V2_send_identity (env : option string) (c : State) (net : Network) :
  sending c = false -> isCreatorQuestion (trim (input c)) = false ->
  isNameQuestion (trim (input c)) = true ->
  V2.send env c net =
  ([SetMessages (Some (user (trim (input c)))); SetInput "";
    SetMessages (Some (assistant (JStr V2.identity_text)))], Normal tt).
Proof.
  intros Hs Hc Hn. unfold V2.send.
  rewrite (classifier_needs_text _ (or_intror Hn)), Hs, Hc, Hn. reflexivity.
Qed.

Lemma local_reply_intro (c : State) (reply : string) (r : Js unit) :
  sending c = false ->
  r = ([SetMessages (Some (user (trim (input c)))); SetInput "";
        SetMessages (Some (assistant (JStr reply)))], Normal tt) ->
  local_reply c reply r.
Proof.
  intros Hs ->. unfold local_reply. cbn.
  repeat split; try reflexivity.
  eexists. split; [reflexivity|]. cbn. rewrite <- app_assoc. auto.
Qed.

(** C1. From an idle render whose trimmed input matches a Creator
    substring, [send] (either variant) appends the user turn and exactly one
    assistant message with the fixed creator text, calls [fetch] zero times
    and never calls [setSending], so the state stays idle; the same holds
    with the fixed identity text when the trimmed input matches an Identity
    substring and no Creator substring. *)
Theorem canned_reply_is_local (env : option string) (c : State) (net : Network) :
  sending c = false ->
  (isCreatorQuestion (trim (input c)) = true ->
   local_reply c V1.creator_text (V1.send c net) /\
   local_reply c V2.creator_text (V2.send env c net)) /\
  (isCreatorQuestion (trim (input c)) = false ->
   isNameQuestion (trim (input c)) = true ->
   local_reply c V1.identity_text (V1.send c net) /\
   local_reply c V2.identity_text (V2.send env c net)).
Proof.
  intros Hs. split.
  - intros Hc. split; apply local_reply_intro; trivial.
    + now apply V1_send_creator.
    + now apply V2_send_creator.
  - intros Hc Hn. split; apply local_reply_intro; trivial.
    + now apply V1_send_identity.
    + now apply V2_send_identity.
Qed.

(** C8. When the trimmed input is empty, or the render has a send in
    progress, [send] does nothing at all: no state update is issued, so the
    conversation and the input buffer are what they were, and no request is
    made. *)
Theorem skipped_send_is_silent (env : option string) (c : State) (net : Network) :
  trim (input c) = "" \/ sending c = true ->
  (V2.send env c net = ([], Normal tt) /\ V1.send c net = ([], Normal tt)) /\
  run (fst (V2.send env c net)) c = Some c /\
  requests (fst (V2.send env c net)) = [].
Proof.
  intros H.
  assert (G : (trim (input c) =? "") || sending c = true).
  { destruct H as [H|H]; rewrite H; [reflexivity | apply orb_true_r]. }
  assert (E2 : V2.send env c net = ([], Normal tt)).
  { unfold V2.send. now rewrite G. }
  assert (E1 : V1.send c net = ([], Normal tt)).
  { unfold V1.send. now rewrite G. }
  rewrite E2. repeat split; trivial.
Qed.

Lemma isCreatorQuestion_patterns (msg : string) :
  isCreatorQuestion msg = existsb (includes (normalize msg)) creator_patterns.
Proof.
  unfold isCreatorQuestion, creator_patterns. cbn [existsb].
  now rewrite orb_false_r, !orb_assoc.
Qed.

Lemma isNameQuestion_patterns (msg : string) :
  isNameQuestion msg =
  existsb (includes (normalize msg)) name_patterns || (normalize msg =? "name").
Proof.
  unfold isNameQuestion, name_patterns. cbn [existsb].
  rewrite orb_false_r.
  destruct (includes (normalize msg) "your name");
    destruct (includes (normalize msg) "ur name");
    destruct (normalize msg =? "name");
    destruct (includes (normalize msg) "what is your name");
    destruct (includes (normalize msg) "who are you"); reflexivity.
Qed.

(** C9, as the code has it.  Each classifier looks for the substrings of
    its own list (the Identity one also accepts the exact word "name"), and
    no substring belongs to both lists; an input can all the same match
    both classifiers.  From an idle render whose trimmed input matches
    both, [send] (either variant) answers with the creator text alone: the
    Creator check comes first. *)
Theorem creator_checked_first (env : option string) (c : State) (net : Network) :
  (forall msg,
     isCreatorQuestion msg = existsb (includes (normalize msg)) creator_patterns) /\
  (forall msg,
     isNameQuestion msg =
     existsb (includes (normalize msg)) name_patterns ||
     (normalize msg =? "name")) /\
  (forall p, In p creator_patterns -> ~ In p ("name" :: name_patterns)) /\
  (sending c = false ->
   isCreatorQuestion (trim (input c)) = true ->
   isNameQuestion (trim (input c)) = true ->
   local_reply c V1.creator_text (V1.send c net) /\
   local_reply c V2.creator_text (V2.send env c net)).
Proof.
  split; [exact isCreatorQuestion_patterns|].
  split; [exact isNameQuestion_patterns|].
  split.
  - intros p Hc Hn. unfold creator_patterns in Hc. cbn in Hc, Hn.
    intuition (subst; discriminate).
  - intros Hs Hc _. split; apply local_reply_intro; trivial.
    + now apply V1_send_creator.
    + now apply V2_send_creator.
Qed.

Lemma slice_last_length {A : Type} (l : list A) :
  List.length (slice (-10) l) = Nat.min 10 (List.length l).
Proof.
  unfold slice. rewrite length_skipn.
  change (-10 <? 0)%Z with true. cbv iota. lia.
Qed.

(** C3. Whatever the conversation, [historyForServer] has at most 10
    entries: the last ones of the conversation, in order and with their
    text unchanged.  Every entry's role is "assistant" or "user":
    "assistant" when the message's role is literally "assistant", "user"
    for any other role. *)
Theorem history_window_bounded (msgs : list Message) :
  (List.length (historyForServer msgs) <= 10)%nat /\
  List.length (historyForServer msgs) = Nat.min 10 (List.length msgs) /\
  Forall2 (fun m e =>
             text e = text m /\
             role e = if role m =? "assistant" then "assistant" else "user")
          (slice (-10) msgs) (historyForServer msgs) /\
  Forall (fun e => role e = "assistant" \/ role e = "user")
         (historyForServer msgs).
Proof.
  assert (L : List.length (historyForServer msgs) = Nat.min 10 (List.length msgs)).
  { unfold historyForServer. rewrite length_map. apply slice_last_length. }
  split; [lia|]. split; [exact L|].
  unfold historyForServer. generalize (slice (-10) msgs) as l.
  intros l. split.
  - induction l as [|m l IH]; cbn; constructor; trivial. cbn. auto.
  - apply Forall_forall. intros e He. apply in_map_iff in He.
    destruct He as [m [<- _]]. cbn.
    destruct (role m =? "assistant"); auto.
Qed.

Lemma truthy_get_member (data : value) (k : string) :
  truthy (get data k) = true -> member data k = Some (get data k).
Proof. destruct data; cbn; intros H; try discriminate; reflexivity. Qed.

(** The second variant on a render that goes to the network, when the
    body of the response does not stay away: the user turn, the cleared
    input, one bounded request, the updates of one of the five outcomes,
    and the release of the send state. *)
Lemma V2_send_remote (env : option string) (c : State) (net : Network) :
  goes_remote c = true ->
  body_never_arrives net = false ->
  exists out,
    outcome net out /\
    V2.send env c net =
    ([SetMessages (Some (user (trim (input c)))); SetInput "";
      SetSending true; SetTimeout 45000;
      Fetch (fst (chat_request env c)) (snd (chat_request env c));
      ClearTimeout] ++ out ++ [SetSending false], Normal tt).
Proof.
  intros H B. destruct (goes_remote_inv c H) as (Ht & Hs & Hc & Hn).
  unfold V2.send. rewrite Ht, Hs, Hc, Hn. cbn.
  change (timer_delay 45000) with 45000%Z.
  destruct net as [[w [r| |st]]|]; cbn.
  - destruct (45000 <=? w)%Z eqn:Hw; cbn.
    + eexists. split; [apply out_timeout; exact Hw|reflexivity].
    + apply Z.leb_gt in Hw.
      destruct (ok r) eqn:Hok; [destruct (usable_reply r) eqn:Hu|].
      * exists [SetMessages (Some (assistant (get (parsed r) "reply")));
                SetOnline true].
        split; [now apply (out_reply _ w r)|].
        unfold usable_reply in Hu. unfold parsed, json.
        destruct (json_body r) as [data|]; [|discriminate]. cbn.
        rewrite Hu, (truthy_get_member _ _ Hu). reflexivity.
      * exists [SetMessages (Some (assistant (JStr V2.no_reply_text)));
                SetOnline true].
        split; [now apply (out_empty _ w r)|].
        unfold usable_reply in Hu. unfold json.
        destruct (json_body r) as [data|]; cbn; [rewrite Hu|]; reflexivity.
      * eexists. split; [now apply (out_status _ w r)|].
        unfold failure_payload, parsed, json.
        destruct (json_body r) as [data|]; reflexivity.
  - destruct (45000 <=? w)%Z eqn:Hw; cbn.
    + eexists. split; [apply out_timeout; exact Hw|reflexivity].
    + apply Z.leb_gt in Hw.
      eexists. split; [now apply (out_network _ w)|reflexivity].
  - cbn in B. apply Z.ltb_ge in B.
    destruct (45000 <=? w)%Z eqn:Hw; cbn.
    + eexists. split; [apply out_timeout; exact Hw|reflexivity].
    + apply Z.leb_gt in Hw. lia.
  - eexists. split; [now apply out_timeout|reflexivity].
Qed.

(** The second variant on a render that goes to the network, when the
    headers of a response arrive in time and its body never does: the
    timer is cleared, the handler stays suspended at [r.json()], before
    any outcome and before the release of the send state. *)
Lemma V2_send_stalled (env : option string) (c : State) (net : Network) :
  goes_remote c = true ->
  body_never_arrives net = true ->
  V2.send env c net =
  ([SetMessages (Some (user (trim (input c)))); SetInput "";
    SetSending true; SetTimeout 45000;
    Fetch (fst (chat_request env c)) (snd (chat_request env c));
    ClearTimeout], Pending).
Proof.
  intros H B. destruct (goes_remote_inv c H) as (Ht & Hs & Hc & Hn).
  unfold V2.send. rewrite Ht, Hs, Hc, Hn. cbn.
  change (timer_delay 45000) with 45000%Z.
  destruct net as [[w [r| |st]]|]; try discriminate.
  cbn in B. apply Z.ltb_lt in B.
  destruct (45000 <=? w)%Z eqn:Hw; [apply Z.leb_le in Hw; lia|].
  reflexivity.
Qed.

Lemma run_app (t1 t2 : list action) (s : State) :
  run (t1 ++ t2) s =
  match run t1 s with
  | Some s' => run t2 s'
  | None => None
  end.
Proof.
  revert s. induction t1 as [|a t1 IH]; intros s; cbn; [reflexivity|].
  destruct (apply a s); [apply IH|reflexivity].
Qed.

Lemma appended_app (t1 t2 : list action) :
  appended (t1 ++ t2) = appended t1 ++ appended t2.
Proof. apply flat_map_app. Qed.

Lemma run_release (t : list action) (s s' : State) :
  run (t ++ [SetSending false]) s = Some s' -> sending s' = false.
Proof.
  rewrite run_app. destruct (run t s) as [x|]; cbn; [|discriminate].
  now intros [= <-].
Qed.

(** What the updates of an outcome do to a state whose conversation is
    [ms]: they append one assistant message, unless building the text of a
    non-success response raised. *)
Lemma outcome_run (net : Network) (out : list action) (s : State) :
  outcome net out ->
  (exists a b,
     appended out = [Some (assistant a)] /\ onlines out = [b] /\
     run out s = Some {| online := b; input := input s;
                         sending := sending s;
                         messages := messages s ++ [assistant a] |}) \/
  (appended out = [None] /\ run out s = None /\
   exists w r, net = Some (w, Resolved r) /\ (w < 45000)%Z /\ ok r = false).
Proof.
  intros Ho. destruct Ho as [Hw | w E Hw | w r E Hw Hok | w r E Hw Hok Hu
                            | w r E Hw Hok Hu].
  - left. do 2 eexists. repeat split.
  - left. do 2 eexists. repeat split.
  - destruct (template "âŒ " (Some (failure_payload r))) as [x|] eqn:T.
    + left. exists (JStr x), false. repeat split.
    + right. repeat split; eauto.
  - left. do 2 eexists. repeat split.
  - left. do 2 eexists. repeat split.
Qed.

(** The state the second variant leaves on a render that goes to the
    network: the input cleared, the send state released, the conversation
    longer by the user turn and one assistant turn; or no state at all,
    when the text for a non-success response could not be built. *)
Lemma V2_remote_run (env : option string) (c : State) (net : Network) :
  goes_remote c = true ->
  body_never_arrives net = false ->
  (exists a b,
     appended (fst (V2.send env c net)) =
       [Some (user (trim (input c))); Some (assistant a)] /\
     run (fst (V2.send env c net)) c =
       Some {| online := b; input := ""; sending := false;
               messages := messages c ++ [user (trim (input c)); assistant a] |}) \/
  (appended (fst (V2.send env c net)) = [Some (user (trim (input c))); None] /\
   run (fst (V2.send env c net)) c = None /\
   exists w r, net = Some (w, Resolved r) /\ (w < 45000)%Z /\ ok r = false).
Proof.
  intros H B. destruct (V2_send_remote env c net H B) as (out & Ho & E).
  rewrite E. cbn [fst].
  rewrite appended_app, run_app. cbn. rewrite appended_app, run_app.
  destruct (outcome_run net out
              {| online := online c; input := ""; sending := true;
                 messages := messages c ++ [user (trim (input c))] |} Ho)
    as [(a & b & Ha & _ & Hr) | (Ha & Hr & Hn)]; rewrite Ha, Hr; cbn.
  - left. exists a, b. rewrite <- app_assoc. split; reflexivity.
  - right. repeat split. exact Hn.
Qed.

Lemma stalled_no_outcome (net : Network) (out : list action) :
  body_never_arrives net = true -> ~ outcome net out.
Proof.
  intros B Ho.
  destruct net as [[w [r| |st]]|]; try discriminate.
  cbn in B. apply Z.ltb_lt in B.
  destruct Ho as [Hw | w' E Hw | w' r' E Hw Hok | w' r' E Hw Hok Hu
                 | w' r' E Hw Hok Hu]; try discriminate.
  cbn in Hw. apply Z.leb_le in Hw. lia.
Qed.

(** C5, as the code has it.  On a render that goes to the network,
    whichever of the five outcomes runs, [send] of the second variant runs
    to its end, calls [setSending] exactly twice, with [true] and then with
    [false], the latter as its last action, and the state it leaves is not
    sending (no state is left only when the text for a non-success
    response could not be built).  One of the five outcomes runs unless the
    headers of a response arrive in time and its body never does: then the
    timer is already cleared, the handler stays suspended, [setSending] was
    called with [true] only and the state stays sending. *)
Theorem send_state_released_once (env : option string) (c : State)
    (net : Network) :
  goes_remote c = true ->
  (body_never_arrives net = false ->
   (exists out, outcome net out) /\
   snd (V2.send env c net) = Normal tt /\
   sendings (fst (V2.send env c net)) = [true; false] /\
   (exists t, fst (V2.send env c net) = t ++ [SetSending false]) /\
   (forall s, run (fst (V2.send env c net)) c = Some s -> sending s = false) /\
   (run (fst (V2.send env c net)) c = None ->
      exists w r, net = Some (w, Resolved r) /\ (w < 45000)%Z /\ ok r = false)) /\
  (body_never_arrives net = true ->
   (forall out, ~ outcome net out) /\
   snd (V2.send env c net) = Pending /\
   sendings (fst (V2.send env c net)) = [true] /\
   exists s, run (fst (V2.send env c net)) c = Some s /\ sending s = true).
Proof.
  intros H. split; intros B.
  - split; [|split; [|split; [|split; [|split]]]].
    + destruct (V2_send_remote env c net H B) as (out & Ho & _). eauto.
    + destruct (V2_send_remote env c net H B) as (out & _ & ->). reflexivity.
    + destruct (V2_send_remote env c net H B) as (out & Ho & ->).
      destruct Ho; reflexivity.
    + destruct (V2_send_remote env c net H B) as (out & _ & ->).
      eexists. cbn [fst]. rewrite app_assoc. reflexivity.
    + destruct (V2_remote_run env c net H B)
        as [(a & b & _ & ->) | (_ & -> & _)]; [|discriminate].
      now intros s [= <-].
    + destruct (V2_remote_run env c net H B)
        as [(a & b & _ & ->) | (_ & _ & Hn)]; [discriminate|].
      intros _. exact Hn.
  - split; [intros out; now apply stalled_no_outcome|].
    rewrite (V2_send_stalled env c net H B). cbn.
    split; [reflexivity|]. split; [reflexivity|].
    eexists. split; reflexivity.
Qed.

(** C2, as the code has it.  On a render that goes to the network with a
    conversation of length N, whichever of the five outcomes runs, timeout
    and network failure included, [send] of the second variant runs to its
    end and calls [setMessages] exactly twice, for the user turn and then
    for one assistant turn.  Whenever the assistant turn can be built the
    conversation ends as the old one followed by these two turns, of
    length N+2; it can fail to be built only for a response with a
    non-success status.  When no outcome runs, because the body of a
    response whose headers came in time never arrives, the handler stays
    suspended and the conversation stays at the user turn alone, of length
    N+1. *)
Theorem remote_send_appends_two (env : option string) (c : State)
    (net : Network) :
  goes_remote c = true ->
  (body_never_arrives net = false ->
   snd (V2.send env c net) = Normal tt /\
   (exists a, appended (fst (V2.send env c net)) =
              [Some (user (trim (input c))); option_map assistant a]) /\
   (forall s, run (fst (V2.send env c net)) c = Some s ->
      exists a,
        messages s = messages c ++ [user (trim (input c)); assistant a] /\
        List.length (messages s) = (List.length (messages c) + 2)%nat) /\
   (run (fst (V2.send env c net)) c = None ->
      exists w r, net = Some (w, Resolved r) /\ (w < 45000)%Z /\ ok r = false)) /\
  (body_never_arrives net = true ->
   snd (V2.send env c net) = Pending /\
   appended (fst (V2.send env c net)) = [Some (user (trim (input c)))] /\
   exists s, run (fst (V2.send env c net)) c = Some s /\
             messages s = messages c ++ [user (trim (input c))] /\
             List.length (messages s) = (List.length (messages c) + 1)%nat).
Proof.
  intros H. split; intros B.
  - split.
    { destruct (V2_send_remote env c net H B) as (out & _ & ->). reflexivity. }
    destruct (V2_remote_run env c net H B)
      as [(a & b & -> & ->) | (-> & -> & Hn)].
    + split; [exists (Some a); reflexivity|]. split; [|discriminate].
      intros s [= <-]. exists a. cbn. split; [reflexivity|].
      rewrite length_app. reflexivity.
    + split; [exists None; reflexivity|]. split; [discriminate|].
      intros _. exact Hn.
  - rewrite (V2_send_stalled env c net H B). cbn.
    split; [reflexivity|]. split; [reflexivity|].
    eexists. split; [reflexivity|]. cbn. split; [reflexivity|].
    rewrite length_app. reflexivity.
Qed.

Lemma requests_app (t1 t2 : list action) :
  requests (t1 ++ t2) = requests t1 ++ requests t2.
Proof. apply flat_map_app. Qed.

Lemma outcome_requests (net : Network) (out : list action) :
  outcome net out -> requests out = [].
Proof. intros Ho. destruct Ho; reflexivity. Qed.

(** C4, as the code has it.  On a render that goes to the network, [send]
    of the second variant issues one request, whose body carries the
    trimmed input as [message] and, as [history], the window over the
    messages of the render the handler closes over, that is the
    conversation before the user turn is appended.  The turn being sent is
    in that window only if one of the last ten earlier messages already had
    its text and a role other than "assistant". *)
Theorem history_is_of_the_render (env : option string) (c : State)
    (net : Network) :
  goes_remote c = true ->
  exists url o,
    requests (fst (V2.send env c net)) = [(url, o)] /\
    body o = Some {| message := trim (input c);
                     history := historyForServer (messages c) |} /\
    (In (user (trim (input c))) (historyForServer (messages c)) ->
     exists m, In m (slice (-10) (messages c)) /\
               text m = JStr (trim (input c)) /\ role m <> "assistant").
Proof.
  intros H.
  exists (fst (chat_request env c)), (snd (chat_request env c)).
  split; [|split].
  - destruct (body_never_arrives net) eqn:B.
    + rewrite (V2_send_stalled env c net H B). reflexivity.
    + destruct (V2_send_remote env c net H B) as (out & Ho & ->). cbn [fst].
      rewrite requests_app, requests_app, (outcome_requests net out Ho).
      reflexivity.
  - reflexivity.
  - unfold historyForServer. intros Hin. apply in_map_iff in Hin.
    destruct Hin as (m & Hm & Hin). exists m. split; [exact Hin|].
    unfold user in Hm. injection Hm as Hr Ht. split; [exact Ht|].
    destruct (role m =? "assistant") eqn:R; [discriminate|].
    now apply String.eqb_neq.
Qed.

Lemma timed_out_not_stalled (net : Network) :
  timed_out net 45000 = true -> body_never_arrives net = false.
Proof.
  destruct net as [[w [r| |st]]|]; cbn; trivial.
  intros T. apply Z.leb_le in T. apply Z.ltb_ge. exact T.
Qed.

(** C6. On a render that goes to the network: when the 45000 ms timer
    fires before the request settles, the second variant ends the
    conversation with the timeout text and leaves [online] false; when the
    request fails earlier, it ends it with the connection-error text and
    leaves [online] false; the two texts differ. *)
Theorem timeout_is_distinguished (env : option string) (c : State)
    (net : Network) :
  goes_remote c = true ->
  (timed_out net 45000 = true ->
   exists s, run (fst (V2.send env c net)) c = Some s /\
             messages s = messages c ++ [user (trim (input c));
                                         assistant (JStr V2.timeout_text)] /\
             online s = false) /\
  (forall w, net = Some (w, Rejected) -> (w < 45000)%Z ->
   exists s, run (fst (V2.send env c net)) c = Some s /\
             messages s = messages c ++ [user (trim (input c));
                                         assistant (JStr V2.connection_text)] /\
             online s = false) /\
  V2.timeout_text <> V2.connection_text.
Proof.
  intros H. split; [|split].
  - intros T.
    destruct (V2_send_remote env c net H (timed_out_not_stalled net T))
      as (out & Ho & E).
    rewrite E. cbn [fst].
    destruct Ho as [Hw | w E' Hw | w r E' Hw Hok | w r E' Hw Hok Hu
                   | w r E' Hw Hok Hu];
      try (subst net; cbn in T; apply Z.leb_le in T; lia).
    eexists. split; [reflexivity|]. cbn. rewrite <- app_assoc. auto.
  - intros w' N Hlt.
    assert (B : body_never_arrives net = false) by now subst net.
    destruct (V2_send_remote env c net H B) as (out & Ho & E).
    rewrite E. cbn [fst].
    destruct Ho as [Hw | w E' Hw | w r E' Hw Hok | w r E' Hw Hok Hu
                   | w r E' Hw Hok Hu];
      try (subst net; discriminate).
    + subst net. cbn in Hw. apply Z.leb_le in Hw. lia.
    + eexists. split; [reflexivity|]. cbn. rewrite <- app_assoc. auto.
  - discriminate.
Qed.

(** C7. On a render that goes to the network, for a response that arrives
    in time with a success status and no usable reply (the body is not
    JSON, or its reply field is missing, empty or otherwise falsy), the
    second variant ends the conversation with "No reply." and leaves
    [online] true. *)
Theorem empty_reply_keeps_online (env : option string) (c : State)
    (w : Z) (r : Response) :
  goes_remote c = true ->
  (w < 45000)%Z ->
  ok r = true ->
  usable_reply r = false ->
  exists s, run (fst (V2.send env c (Some (w, Resolved r)))) c = Some s /\
            messages s = messages c ++ [user (trim (input c));
                                        assistant (JStr "No reply.")] /\
            online s = true.
Proof.
  intros H Hlt Hok Hu.
  destruct (V2_send_remote env c (Some (w, Resolved r)) H eq_refl)
    as (out & Ho & E).
  rewrite E. cbn [fst].
  destruct Ho as [Hw | w' E' Hw | w' r' E' Hw Hok' | w' r' E' Hw Hok' Hu'
                 | w' r' E' Hw Hok' Hu'];
    try discriminate.
  - cbn in Hw. apply Z.leb_le in Hw. lia.
  - injection E' as <- <-. congruence.
  - injection E' as <- <-. congruence.
  - eexists. split; [reflexivity|]. cbn. rewrite <- app_assoc. auto.
Qed.

(** The replies C7 speaks of: an unreadable body, a missing reply field and
    an empty one are all unusable. *)
Lemma unusable_reply_cases (st : N) (fields : list (string * value)) :
  usable_reply {| status := st; json_body := None |} = false /\
  (own "reply" fields = None ->
   usable_reply {| status := st; json_body := Some (JObj fields) |} = false) /\
  (own "reply" fields = Some (JStr "") ->
   usable_reply {| status := st; json_body := Some (JObj fields) |} = false).
Proof.
  unfold usable_reply. cbn. repeat split; intros ->; reflexivity.
Qed.

(** C10. On a render that goes to the network, the first variant issues
    its one request with no abort signal and never starts a timer; and for
    every response whose body parses as JSON, whatever its status and
    whether or not the body has an error field, it runs to its end and
    calls [setOnline] once, with [true], so that the state it leaves is
    online.  (No state is left only when the assistant message could not be
    built: the body is [null] (or [undefined], which parsing never
    gives), or its error field has no string conversion.) *)
Theorem V1_parsed_response_sets_online (c : State) :
  goes_remote c = true ->
  (forall net,
     timers (fst (V1.send c net)) = [] /\
     exists url o, requests (fst (V1.send c net)) = [(url, o)] /\
                   signal o = None) /\
  (forall w r data,
     json_body r = Some data ->
     snd (V1.send c (Some (w, Resolved r))) = Normal tt /\
     onlines (fst (V1.send c (Some (w, Resolved r)))) = [true] /\
     (forall s, run (fst (V1.send c (Some (w, Resolved r)))) c = Some s ->
                online s = true) /\
     (run (fst (V1.send c (Some (w, Resolved r)))) c = None ->
      data = JNull \/ data = JUndefined \/
      toString (get data "error") = None)).
Proof.
  intros H. destruct (goes_remote_inv c H) as (Ht & Hs & Hc & Hn).
  unfold V1.send. rewrite Ht, Hs, Hc, Hn. split.
  - intros net. destruct net as [[w [r| |st]]|]; cbn.
    + unfold json. destruct (json_body r) as [data|]; cbn.
      * destruct (truthy (get data "error")); cbn; eauto.
      * eauto.
    + eauto.
    + eauto.
    + eauto.
  - intros w r data J. cbn. unfold json. rewrite J. cbn.
    destruct (truthy (get data "error")) eqn:T; cbn.
    + rewrite (truthy_get_member _ _ T). cbn.
      destruct (toString (get data "error")); cbn.
      * repeat split; try discriminate. now intros ? [= <-].
      * repeat split; try discriminate. auto.
    + destruct data; cbn; repeat split; try discriminate; auto;
        now intros ? [= <-].
Qed.

End Properties.

(** * Further properties *)

Section Further.
Context {num : Numeric}.

(** ** [fetchWithTimeout] *)

(** X1. Whatever the network does and whatever options it is given,
    [fetchWithTimeout] settles: it starts one timer of [ms], issues one
    request that keeps the method, headers and body of the options and
    carries the signal of that timer, and clears the timer as its last
    action.  A bare [fetch] without signal, by contrast, stays pending on
    a network that never answers. *)
Theorem fetchWithTimeout_always_settles (net : Network) (url : string)
    (o : Options) (ms : Z) :
  snd (V2.fetchWithTimeout net url o ms) <> Pending /\
  fst (V2.fetchWithTimeout net url o ms) =
    [SetTimeout ms;
     Fetch url {| method := method o; headers := headers o; body := body o;
                  signal := Some ms |};
     ClearTimeout] /\
  snd (fetch None url {| method := method o; headers := headers o;
                         body := body o; signal := None |}) = Pending.
Proof.
  unfold V2.fetchWithTimeout, fetch. cbn.
  destruct net as [[w [r| |st]]|]; cbn;
    try destruct (timer_delay ms <=? w)%Z; cbn;
    repeat split; discriminate.
Qed.

Lemma timer_delay_in_range (ms : Z) :
  (0 <= ms <= 2147483647)%Z -> timer_delay ms = ms.
Proof.
  intros R. unfold timer_delay. rewrite Z.mod_small by lia. lia.
Qed.

(** X2. What [fetchWithTimeout] yields for a delay [ms] that
    [setTimeout] takes as it is, [1 <= ms <= 2147483647], as the 15000 and
    the 45000 the code passes: the response exactly when the network
    delivers its headers before [ms]; an AbortError exactly when the timer
    fires first (the request settles at [ms] or later, or never); a
    TypeError exactly when the request fails before [ms]. *)
Theorem fetchWithTimeout_result (net : Network) (url : string)
    (o : Options) (ms : Z) :
  (1 <= ms <= 2147483647)%Z ->
  (forall r, snd (V2.fetchWithTimeout net url o ms) = Normal r <->
             exists w x, net = Some (w, x) /\ delivered x = Some r /\
                         (w < ms)%Z) /\
  (snd (V2.fetchWithTimeout net url o ms) = Throw AbortError <->
   timed_out net ms = true) /\
  (snd (V2.fetchWithTimeout net url o ms) = Throw TypeError <->
   exists w, net = Some (w, Rejected) /\ (w < ms)%Z).
Proof.
  intros R.
  split; [|split];
    unfold V2.fetchWithTimeout, fetch, timed_out; cbn;
    rewrite ?(timer_delay_in_range ms) by lia;
    destruct net as [[w x]|]; cbn;
    try (destruct (ms <=? w)%Z eqn:E; cbn;
         [apply Z.leb_le in E | apply Z.leb_gt in E]).
  - intros r. split; [discriminate|].
    intros (w' & x' & [= -> ->] & _ & L). lia.
  - intros r. destruct (delivered x) as [r'|] eqn:D; cbn; split.
    + intros [= ->]. eauto.
    + intros (w' & x' & [= <- <-] & D' & _). congruence.
    + discriminate.
    + intros (w' & x' & [= <- <-] & D' & _). congruence.
  - intros r. split; [discriminate|]. intros (w' & x' & [=] & _).
  - tauto.
  - destruct (delivered x); cbn; split; discriminate.
  - tauto.
  - split; [discriminate|]. intros (w' & [= -> ->] & L). lia.
  - destruct x as [r| |st]; cbn; split; try discriminate; eauto.
    + intros (w' & [=] & _).
    + intros (w' & [=] & _).
  - split; [discriminate|]. intros (w' & [=] & _).
Qed.

(** ** The health check *)

(** X3. The health check always runs to its end and calls [setOnline]
    exactly once: with [true] when the headers of a response with a
    success status arrive within 15000 ms, with [false] in every other
    case.  It issues one GET of the health address and touches neither the
    conversation, nor the input, nor the send state. *)
Theorem health_probe_sets_online_once (env : option string) (net : Network) :
  snd (V2.health_probe env net) = Normal tt /\
  (exists b,
     onlines (fst (V2.health_probe env net)) = [b] /\
     (b = true <->
      exists w x r, net = Some (w, x) /\ delivered x = Some r /\
                    (w < 15000)%Z /\ ok r = true) /\
     forall s, run (fst (V2.health_probe env net)) s =
               Some {| online := b; input := input s; sending := sending s;
                       messages := messages s |}) /\
  appended (fst (V2.health_probe env net)) = [] /\
  sendings (fst (V2.health_probe env net)) = [] /\
  requests (fst (V2.health_probe env net)) =
    [((V2.API_BASE env ++ "/health")%string,
      {| method := "GET"; headers := []; body := None;
         signal := Some 15000%Z |})].
Proof.
  unfold V2.health_probe, V2.fetchWithTimeout, fetch. cbn.
  change (timer_delay 15000) with 15000%Z.
  destruct net as [[w x]|]; cbn;
    try (destruct (15000 <=? w)%Z eqn:E; cbn;
         [apply Z.leb_le in E | apply Z.leb_gt in E]).
  - repeat split. exists false. repeat split; try discriminate.
    intros (w' & x' & r' & [= -> ->] & _ & L & _). lia.
  - destruct (delivered x) as [r|] eqn:D; cbn.
    + repeat split. exists (ok r). repeat split.
      * intros Hok. exists w, x, r. auto.
      * intros (w' & x' & r' & [= <- <-] & D' & _ & Hok). congruence.
    + repeat split. exists false. repeat split; try discriminate.
      intros (w' & x' & r' & [= <- <-] & D' & _). congruence.
  - repeat split. exists false. repeat split; try discriminate.
    intros (w' & x' & r' & [=] & _).
Qed.

(** ** [API_BASE] *)

Lemma list_ascii_of_string_app (s t : string) :
  list_ascii_of_string (s ++ t)%string =
  list_ascii_of_string s ++ list_ascii_of_string t.
Proof.
  induction s as [|c s IH]; [reflexivity|].
  change (c :: list_ascii_of_string (s ++ t)%string =
          c :: (list_ascii_of_string s ++ list_ascii_of_string t)).
  now rewrite IH.
Qed.

Lemma reverse_involutive (s : string) : reverse (reverse s) = s.
Proof.
  unfold reverse.
  now rewrite list_ascii_of_string_of_list_ascii, rev_involutive,
    string_of_list_ascii_of_string.
Qed.

Lemma reverse_app (s t : string) :
  reverse (s ++ t)%string = (reverse t ++ reverse s)%string.
Proof.
  unfold reverse. rewrite list_ascii_of_string_app, rev_app_distr.
  generalize (rev (list_ascii_of_string t)) as a.
  generalize (rev (list_ascii_of_string s)) as b.
  intros b a. induction a as [|c a IH]; [reflexivity|].
  change (String c (string_of_list_ascii (a ++ b)) =
          String c (string_of_list_ascii a ++ string_of_list_ascii b)%string).
  now rewrite IH.
Qed.

Lemma strip_slash_app (u : string) : V2.strip_slash (u ++ "/")%string = u.
Proof.
  unfold V2.strip_slash. rewrite reverse_app.
  change (("/" ++ reverse u)%string) with (String "/" (reverse u)).
  apply reverse_involutive.
Qed.

Lemma strip_slash_other (u : string) :
  (forall v, u <> (v ++ "/")%string) -> V2.strip_slash u = u.
Proof.
  intros H. unfold V2.strip_slash.
  destruct (reverse u) as [|c r] eqn:E; [reflexivity|].
  destruct (ascii_dec c "/"%char) as [->|N].
  - exfalso. apply (H (reverse r)).
    rewrite <- (reverse_involutive u), E.
    change (String "/" r) with ("/" ++ r)%string.
    rewrite reverse_app. reflexivity.
  - destruct c as [[] [] [] [] [] [] [] []]; try reflexivity.
    now elim N.
Qed.

(** X4. The base address is never empty and loses exactly one trailing
    slash: a configured address [u/] with [u] not empty gives [u]; a
    configured address that is not empty and does not end in a slash is
    kept as it is; with no address configured, or the address empty or a
    lone slash, the base is the fixed fallback. *)
Theorem API_BASE_strips_one_slash :
  (forall env, V2.API_BASE env <> "") /\
  (forall u, u <> "" -> V2.API_BASE (Some (u ++ "/")%string) = u) /\
  (forall u, u <> "" -> (forall v, u <> (v ++ "/")%string) ->
             V2.API_BASE (Some u) = u) /\
  V2.API_BASE None = "https://esita-chatbot.onrender.com" /\
  V2.API_BASE (Some "") = "https://esita-chatbot.onrender.com" /\
  V2.API_BASE (Some "/") = "https://esita-chatbot.onrender.com".
Proof.
  split; [|split; [|split]].
  - intros [u|]; unfold V2.API_BASE; [|discriminate].
    destruct (V2.strip_slash u =? "") eqn:E; [discriminate|].
    now apply String.eqb_neq.
  - intros u Hu. unfold V2.API_BASE. rewrite strip_slash_app.
    apply String.eqb_neq in Hu. now rewrite Hu.
  - intros u Hu Hs. unfold V2.API_BASE. rewrite (strip_slash_other u Hs).
    apply String.eqb_neq in Hu. now rewrite Hu.
  - repeat split.
Qed.

(** ** What [run] does with the updates of a handler *)

Lemma run_cons_messages (t : list action) (c s : State) :
  run t c = Some s ->
  exists built,
    appended t = map Some built /\ messages s = messages c ++ built.
Proof.
  revert c. induction t as [|a t IH]; intros c.
  - intros [= <-]. exists []. now rewrite app_nil_r.
  - cbn [run].
    destruct a as [[m|]| | | | | |]; cbn [apply]; try discriminate; intros H;
      apply IH in H; destruct H as (built & E & M); cbn in M;
      unfold appended; cbn [flat_map app]; fold (appended t); rewrite E.
    + exists (m :: built). rewrite M, <- app_assoc. auto.
    + exists built. auto.
    + exists built. auto.
    + exists built. auto.
    + exists built. auto.
    + exists built. auto.
    + exists built. auto.
Qed.

Lemma last_default {A : Type} (l : list A) (a d d' : A) :
  last (a :: l) d = last (a :: l) d'.
Proof.
  revert a. induction l as [|b l IH]; intros a; [reflexivity|].
  change (last (b :: l) d = last (b :: l) d'). apply IH.
Qed.

Lemma run_input (t : list action) (c s : State) :
  run t c = Some s -> input s = last (inputs t) (input c).
Proof.
  revert c. induction t as [|a t IH]; intros c.
  - now intros [= <-].
  - cbn [run].
    destruct a as [[m|]| i | | | | |]; cbn [apply]; try discriminate; intros H;
      apply IH in H; cbn in H;
      unfold inputs; cbn [flat_map app]; fold (inputs t); trivial.
    rewrite H. destruct (inputs t); [reflexivity|].
    change (last (s0 :: l) i = last (s0 :: l) (input c)). apply last_default.
Qed.

Lemma outcome_inputs (net : Network) (out : list action) :
  outcome net out -> inputs out = [].
Proof. intros Ho. destruct Ho; reflexivity. Qed.

Lemma inputs_app (t1 t2 : list action) :
  inputs (t1 ++ t2) = inputs t1 ++ inputs t2.
Proof. apply flat_map_app. Qed.

(** ** The first variant on a render that goes to the network *)

(** The first variant after its request: suspended for good when the
    network never answers or the body of the response never arrives; the
    connection error when the request fails or the body cannot be read;
    else the message built from the body, and online. *)
Lemma V1_send_remote (c : State) (net : Network) :
  goes_remote c = true ->
  V1.send c net =
  let pre := [SetMessages (Some (user (trim (input c)))); SetInput "";
              SetSending true;
              Fetch (fst (V1_chat_request c)) (snd (V1_chat_request c))] in
  let failed := [SetOnline false;
                 SetMessages (Some (assistant (JStr V1.connection_text)));
                 SetSending false] in
  match net with
  | None => (pre, Pending)
  | Some (_, Stalled _) => (pre, Pending)
  | Some (_, Rejected) => (pre ++ failed, Normal tt)
  | Some (_, Resolved r) =>
      match json_body r with
      | None => (pre ++ failed, Normal tt)
      | Some data =>
          (pre ++
           [SetMessages
              (if truthy (get data "error") then
                 option_map (fun s => assistant (JStr s))
                   (template "❌ " (member data "error"))
               else
                 option_map (fun v => assistant (nullish v (JStr "No reply.")))
                   (member data "reply"));
            SetOnline true; SetSending false], Normal tt)
      end
  end.
Proof.
  intros H. destruct (goes_remote_inv c H) as (Ht & Hs & Hc & Hn).
  unfold V1.send. rewrite Ht, Hs, Hc, Hn.
  destruct net as [[w [r| |st]]|]; cbn; try reflexivity.
  unfold json. destruct (json_body r) as [data|]; cbn; [|reflexivity].
  destruct (truthy (get data "error")); reflexivity.
Qed.

(** X5. First variant, on a render that goes to the network: when the
    network never answers, the handler stays suspended after its request;
    it has taken the send state and never gives it back, and the
    conversation stays at the user turn. *)
Theorem V1_unanswered_request_keeps_sending (c : State) :
  goes_remote c = true ->
  snd (V1.send c None) = Pending /\
  sendings (fst (V1.send c None)) = [true] /\
  requests (fst (V1.send c None)) = [V1_chat_request c] /\
  run (fst (V1.send c None)) c =
    Some {| online := online c; input := ""; sending := true;
            messages := messages c ++ [user (trim (input c))] |}.
Proof.
  intros H. rewrite (V1_send_remote c None H). cbn. repeat split.
Qed.

(** X6. The first variant never looks at the status of a response nor at
    the time it took: two responses with the same body are handled alike,
    from any render. *)
Theorem V1_ignores_status_and_delay (c : State) (w w' : Z) (r r' : Response) :
  json_body r = json_body r' ->
  V1.send c (Some (w, Resolved r)) = V1.send c (Some (w', Resolved r')).
Proof.
  intros E. unfold V1.send.
  destruct ((trim (input c) =? "") || sending c); [reflexivity|].
  destruct (isCreatorQuestion (trim (input c))); [reflexivity|].
  destruct (isNameQuestion (trim (input c))); [reflexivity|].
  cbn. unfold json. rewrite E. reflexivity.
Qed.

(** X7. First variant, on a render that goes to the network: when the
    request fails, or the body of the response cannot be read as JSON, the
    conversation gets the user turn and the connection-error message, the
    state is offline and the send state is released. *)
Theorem V1_failure_is_connection_error (c : State) (net : Network) :
  goes_remote c = true ->
  (exists w, net = Some (w, Rejected)) \/
  (exists w r, net = Some (w, Resolved r) /\ json_body r = None) ->
  snd (V1.send c net) = Normal tt /\
  run (fst (V1.send c net)) c =
    Some {| online := false; input := ""; sending := false;
            messages := messages c ++
                        [user (trim (input c));
                         assistant (JStr V1.connection_text)] |}.
Proof.
  intros H [[w ->] | (w & r & -> & J)]; rewrite (V1_send_remote c _ H);
    try rewrite J; cbn; rewrite <- app_assoc; split; reflexivity.
Qed.

Lemma V1_run_parsed (c : State) (w : Z) (r : Response) (data : value)
    (m : Message) :
  goes_remote c = true ->
  json_body r = Some data ->
  (if truthy (get data "error") then
     option_map (fun s => assistant (JStr s))
       (template "❌ " (member data "error"))
   else
     option_map (fun v => assistant (nullish v (JStr "No reply.")))
       (member data "reply")) = Some m ->
  run (fst (V1.send c (Some (w, Resolved r)))) c =
  Some {| online := true; input := ""; sending := false;
          messages := messages c ++ [user (trim (input c)); m] |}.
Proof.
  intros H J E. rewrite (V1_send_remote c _ H), J. cbv zeta. rewrite E.
  cbn. now rewrite <- app_assoc.
Qed.

(** X8. First variant, on a render that goes to the network, for a
    response whose body parses to [data]: a truthy error field is shown
    after the cross mark; otherwise the reply field is shown as it is,
    "No reply." standing in only when it is missing or null, so that an
    empty reply is shown empty.  In each case the state is online and the
    send state released. *)
Theorem V1_response_display (c : State) (w : Z) (r : Response) (data : value) :
  goes_remote c = true ->
  json_body r = Some data ->
  let shown (v : value) :=
    run (fst (V1.send c (Some (w, Resolved r)))) c =
    Some {| online := true; input := ""; sending := false;
            messages := messages c ++ [user (trim (input c)); assistant v] |} in
  (truthy (get data "error") = true ->
   forall s, toString (get data "error") = Some s ->
             shown (JStr ("❌ " ++ s)%string)) /\
  (truthy (get data "error") = false ->
   data <> JNull -> data <> JUndefined ->
   shown (nullish (get data "reply") (JStr "No reply."))) /\
  (truthy (get data "error") = false ->
   get data "reply" = JStr "" -> shown (JStr "")) /\
  (truthy (get data "error") = false ->
   (exists fields, data = JObj fields /\ own "reply" fields = None) ->
   shown (JStr "No reply.")).
Proof.
  intros H J shown. subst shown. cbv beta.
  split; [|split; [|split]].
  - intros T s S. apply (V1_run_parsed c w r data _ H J).
    rewrite T, (truthy_get_member _ _ T). unfold template. now rewrite S.
  - intros T N1 N2. apply (V1_run_parsed c w r data _ H J).
    rewrite T. destruct data; try congruence; reflexivity.
  - intros T R. apply (V1_run_parsed c w r data _ H J).
    rewrite T. destruct data; try discriminate. cbn [member option_map].
    now rewrite R.
  - intros T (fields & -> & O). apply (V1_run_parsed c w r _ _ H J).
    rewrite T. cbn. now rewrite O.
Qed.

(** ** The second variant on a response *)

Lemma V2_run_outcome (env : option string) (c : State) (net : Network)
    (out : list action) (m : Message) (b : bool) :
  goes_remote c = true ->
  body_never_arrives net = false ->
  (forall out', outcome net out' -> out' = out) ->
  appended out = [Some m] -> onlines out = [b] ->
  run (fst (V2.send env c net)) c =
  Some {| online := b; input := ""; sending := false;
          messages := messages c ++ [user (trim (input c)); m] |}.
Proof.
  intros H B U A O.
  destruct (V2_send_remote env c net H B) as (out' & Ho & E).
  rewrite E. cbn [fst]. pose proof (U out' Ho) as ->. clear U E.
  rewrite run_app. cbn. rewrite run_app.
  destruct (outcome_run net out
              {| online := online c; input := ""; sending := true;
                 messages := messages c ++ [user (trim (input c))] |} Ho)
    as [(a & b' & Ha & Hb & Hr) | (Ha & _)].
  - rewrite Hr. cbn. rewrite <- app_assoc. cbn.
    rewrite A in Ha. rewrite O in Hb. now injection Ha as ->; injection Hb as ->.
  - rewrite A in Ha. discriminate.
Qed.

Lemma outcome_of_response (w : Z) (r : Response) (out : list action) :
  (w < 45000)%Z ->
  outcome (Some (w, Resolved r)) out ->
  out =
  if ok r then
    if usable_reply r then
      [SetMessages (Some (assistant (get (parsed r) "reply"))); SetOnline true]
    else
      [SetMessages (Some (assistant (JStr V2.no_reply_text))); SetOnline true]
  else
    [SetMessages (option_map (fun s => assistant (JStr s))
                    (template "âŒ " (Some (failure_payload r))));
     SetOnline false].
Proof.
  intros L Ho.
  destruct Ho as [Hw | w' E Hw | w' r' E Hw Hok | w' r' E Hw Hok Hu
                 | w' r' E Hw Hok Hu]; try discriminate.
  - cbn in Hw. apply Z.leb_le in Hw. lia.
  - injection E as <- <-. now rewrite Hok.
  - injection E as <- <-. now rewrite Hok, Hu.
  - injection E as <- <-. now rewrite Hok, Hu.
Qed.

(** X9. Second variant, on a render that goes to the network: a response
    that arrives in time with a success status and a usable reply has that
    reply appended as it is, as the assistant turn after the user turn;
    the state is online, the input cleared and the send state released. *)
Theorem V2_reply_shown_verbatim (env : option string) (c : State)
    (w : Z) (r : Response) :
  goes_remote c = true ->
  (w < 45000)%Z -> ok r = true -> usable_reply r = true ->
  run (fst (V2.send env c (Some (w, Resolved r)))) c =
  Some {| online := true; input := ""; sending := false;
          messages := messages c ++
                      [user (trim (input c));
                       assistant (get (parsed r) "reply")] |}.
Proof.
  intros H L Hok Hu.
  apply (V2_run_outcome env c _
           [SetMessages (Some (assistant (get (parsed r) "reply")));
            SetOnline true]); trivial.
  intros out' Ho. rewrite (outcome_of_response w r out' L Ho), Hok, Hu.
  reflexivity.
Qed.

(** X10. Second variant, on a render that goes to the network, for a
    response that arrives in time with a non-success status: the
    conversation gets the user turn and a message made of the cross mark
    and the first of: the reply field when truthy, the error field when
    truthy, "HTTP" and the status.  The state is offline and the send
    state released.  The third case covers every body that cannot be
    read. *)
Theorem V2_failure_text (env : option string) (c : State)
    (w : Z) (r : Response) :
  goes_remote c = true ->
  (w < 45000)%Z -> ok r = false ->
  let shown (s : string) :=
    run (fst (V2.send env c (Some (w, Resolved r)))) c =
    Some {| online := false; input := ""; sending := false;
            messages := messages c ++
                        [user (trim (input c));
                         assistant (JStr ("âŒ " ++ s)%string)] |} in
  (forall s, truthy (get (parsed r) "reply") = true ->
             toString (get (parsed r) "reply") = Some s -> shown s) /\
  (forall s, truthy (get (parsed r) "reply") = false ->
             truthy (get (parsed r) "error") = true ->
             toString (get (parsed r) "error") = Some s -> shown s) /\
  (truthy (get (parsed r) "reply") = false ->
   truthy (get (parsed r) "error") = false ->
   shown ("HTTP " ++ decimal (status r))%string) /\
  (json_body r = None -> shown ("HTTP " ++ decimal (status r))%string).
Proof.
  intros H L Hok shown. subst shown. cbv beta.
  assert (B : forall s, toString (failure_payload r) = Some s ->
              run (fst (V2.send env c (Some (w, Resolved r)))) c =
              Some {| online := false; input := ""; sending := false;
                      messages := messages c ++
                        [user (trim (input c));
                         assistant (JStr ("âŒ " ++ s)%string)] |}).
  { intros s S.
    apply (V2_run_outcome env c _
             [SetMessages (Some (assistant (JStr ("âŒ " ++ s)%string)));
              SetOnline false]); trivial.
    intros out' Ho. rewrite (outcome_of_response w r out' L Ho), Hok.
    unfold template. now rewrite S. }
  split; [|split; [|split]].
  - intros s T S. apply B. unfold failure_payload, or_else.
    now rewrite T, T.
  - intros s T T' S. apply B. unfold failure_payload, or_else.
    now rewrite T, T'.
  - intros T T'. apply B. unfold failure_payload, or_else.
    now rewrite T, T'.
  - intros J. apply B. unfold failure_payload, parsed. now rewrite J.
Qed.

(** ** What a send never does *)

Lemma not_remote_cases (c : State) :
  goes_remote c = false ->
  (trim (input c) =? "") || sending c = true \/
  ((trim (input c) =? "") || sending c = false /\
   (isCreatorQuestion (trim (input c)) = true \/
    isNameQuestion (trim (input c)) = true)).
Proof.
  unfold goes_remote.
  destruct ((trim (input c) =? "") || sending c); [auto|].
  destruct (isCreatorQuestion (trim (input c))); [auto|].
  destruct (isNameQuestion (trim (input c))); [auto|discriminate].
Qed.

(** X11. A send that does not go to the network (the guard stops it, or a
    classifier answers it) runs to its end without any request or timer
    and without calling [setOnline] or [setSending], in both variants: the
    connectivity shown is left as it was. *)
Theorem local_send_touches_no_network (env : option string) (c : State)
    (net : Network) :
  goes_remote c = false ->
  (snd (V1.send c net) = Normal tt /\
   requests (fst (V1.send c net)) = [] /\
   timers (fst (V1.send c net)) = [] /\
   onlines (fst (V1.send c net)) = [] /\
   sendings (fst (V1.send c net)) = []) /\
  (snd (V2.send env c net) = Normal tt /\
   requests (fst (V2.send env c net)) = [] /\
   timers (fst (V2.send env c net)) = [] /\
   onlines (fst (V2.send env c net)) = [] /\
   sendings (fst (V2.send env c net)) = []).
Proof.
  intros H. unfold V1.send, V2.send.
  destruct (not_remote_cases c H) as [G | [G K]]; rewrite G.
  - repeat split.
  - destruct (isCreatorQuestion (trim (input c))); [repeat split|].
    destruct (isNameQuestion (trim (input c))); [repeat split|].
    destruct K; discriminate.
Qed.


(** The second variant from any render: nothing changes, or the input is
    cleared and the trimmed input, which is not empty, is appended as a
    user turn, followed by one assistant turn unless the body of the
    response never arrives. *)
Lemma V2_send_extends (env : option string) (c s : State) (net : Network) :
  run (fst (V2.send env c net)) c = Some s ->
  s = c \/
  (input s = "" /\ trim (input c) <> "" /\
   (messages s = messages c ++ [user (trim (input c))] \/
    exists a, messages s =
              messages c ++ [user (trim (input c)); assistant a])).
Proof.
  intros Hr. destruct (goes_remote c) eqn:R.
  - right. destruct (goes_remote_inv c R) as (Ht & _).
    apply String.eqb_neq in Ht.
    destruct (body_never_arrives net) eqn:B.
    + rewrite (V2_send_stalled env c net R B) in Hr. cbn in Hr.
      injection Hr as <-. cbn. auto.
    + destruct (V2_remote_run env c net R B)
        as [(a & b & _ & E) | (_ & E & _)]; rewrite E in Hr; [|discriminate].
      injection Hr as <-. cbn. split; [reflexivity|]. split; [exact Ht|].
      right. exists a. reflexivity.
  - revert Hr. unfold V2.send.
    destruct (not_remote_cases c R) as [G | [G K]]; rewrite G.
    + cbn. intros [= <-]. auto.
    + assert (Ht : trim (input c) <> "").
      { apply String.eqb_neq. now apply classifier_needs_text. }
      destruct (isCreatorQuestion (trim (input c)));
        [|destruct (isNameQuestion (trim (input c)));
          [|destruct K; discriminate]];
        cbn; intros [= <-]; cbn; rewrite <- app_assoc; right;
        (split; [reflexivity|]); (split; [exact Ht|]);
        right; eexists; reflexivity.
Qed.


(** ** The history window *)

Lemma slice_map {A B : Type} (f : A -> B) (k : Z) (l : list A) :
  slice k (map f l) = map f (slice k l).
Proof. unfold slice. now rewrite length_map, skipn_map. Qed.

Lemma slice_short {A : Type} (l : list A) :
  (List.length l <= 10)%nat -> slice (-10) l = l.
Proof.
  intros H. unfold slice. change (-10 <? 0)%Z with true. cbv iota.
  replace (Z.to_nat (Z.max (Z.of_nat (List.length l) + -10) 0)) with 0%nat by lia.
  reflexivity.
Qed.

Lemma slice_snoc {A : Type} (l : list A) (m : A) :
  slice (-10) (l ++ [m]) = slice (-9) l ++ [m].
Proof.
  unfold slice. change (-10 <? 0)%Z with true. change (-9 <? 0)%Z with true.
  cbv iota. rewrite length_app. cbn [List.length].
  replace (Z.to_nat (Z.max (Z.of_nat (List.length l + 1) + -10) 0))
    with (Z.to_nat (Z.max (Z.of_nat (List.length l) + -9) 0)) by lia.
  rewrite skipn_app.
  replace (Z.to_nat (Z.max (Z.of_nat (List.length l) + -9) 0) - List.length l)%nat
    with 0%nat by lia.
  reflexivity.
Qed.

Lemma slice_slice {A : Type} (l : list A) :
  slice (-9) (slice (-10) l) = slice (-9) l.
Proof.
  unfold slice. change (-10 <? 0)%Z with true. change (-9 <? 0)%Z with true.
  cbv iota. rewrite length_skipn, skipn_skipn. f_equal. lia.
Qed.

Lemma known_role_kept (m : Message) :
  known_role m ->
  {| role := if role m =? "assistant" then "assistant" else "user";
     text := text m |} = m.
Proof.
  destruct m as [r t]. unfold known_role. cbn. intros [-> | ->]; reflexivity.
Qed.

(** X13. The history view is stable: taking the view of a view changes
    nothing, and a conversation of at most ten messages whose roles are
    all "user" or "assistant" is its own view. *)
Theorem history_view_stable (msgs : list Message) :
  historyForServer (historyForServer msgs) = historyForServer msgs /\
  ((List.length msgs <= 10)%nat -> Forall known_role msgs ->
   historyForServer msgs = msgs).
Proof.
  assert (K : forall l : list Message,
            (List.length l <= 10)%nat -> Forall known_role l ->
            historyForServer l = l).
  { intros l Hl Hk. unfold historyForServer. rewrite (slice_short l Hl).
    induction Hk as [|m l Hm _ IH]; [reflexivity|].
    cbn [map]. rewrite (known_role_kept m Hm). f_equal. apply IH.
    cbn in Hl. lia. }
  split; [|apply K].
  apply K.
  - unfold historyForServer. rewrite length_map, slice_last_length. lia.
  - unfold historyForServer. apply Forall_forall. intros e He.
    apply in_map_iff in He. destruct He as [m [<- _]]. unfold known_role. cbn.
    destruct (role m =? "assistant"); auto.
Qed.

(** X14. The history view slides with the conversation: the view after one
    more message is the last nine entries of the view before, followed by
    the new message with its role collapsed. *)
Theorem history_view_slides (msgs : list Message) (m : Message) :
  historyForServer (msgs ++ [m]) =
  slice (-9) (historyForServer msgs) ++ historyForServer [m].
Proof.
  unfold historyForServer.
  rewrite slice_snoc, map_app, slice_map, slice_slice. reflexivity.
Qed.

(** ** Sessions of the second variant *)

Lemma sends_cons (e : event) (es : list event) :
  sends (e :: es) = (sends [e] + sends es)%nat.
Proof.
  unfold sends. cbn [filter].
  destruct e as [value | key shiftKey net | net | net]; try reflexivity.
  destruct ((key =? "Enter") && negb shiftKey); reflexivity.
Qed.

Lemma turns_of_app (who : string) (l1 l2 : list Message) :
  turns_of who (l1 ++ l2) = (turns_of who l1 + turns_of who l2)%nat.
Proof. unfold turns_of. now rewrite filter_app, length_app. Qed.

Lemma added_by_nil (n : nat) : added_by n [].
Proof. repeat split; try constructor; cbn; lia. Qed.

Lemma added_by_user (t : string) : t <> "" -> added_by 1 [user t].
Proof.
  intros Ht. repeat split; cbn; try lia.
  - constructor; [left; reflexivity | constructor].
  - constructor; [|constructor]. cbn. intros _ [= E]. now apply Ht.
Qed.

Lemma added_by_exchange (t : string) (a : value) :
  t <> "" -> added_by 1 [user t; assistant a].
Proof.
  intros Ht. repeat split; cbn; try lia.
  - constructor; [left; reflexivity|].
    constructor; [right; reflexivity | constructor].
  - constructor; [cbn; intros _ [= E]; now apply Ht|].
    constructor; [cbn; discriminate | constructor].
Qed.

Lemma added_by_app (n1 n2 : nat) (l1 l2 : list Message) :
  added_by n1 l1 -> added_by n2 l2 -> added_by (n1 + n2) (l1 ++ l2).
Proof.
  intros (K1 & T1 & A1 & U1) (K2 & T2 & A2 & U2).
  repeat split; try (apply Forall_app; split; assumption);
    rewrite !turns_of_app; lia.
Qed.

(** One event: the conversation grows by nothing, by a user turn, or by a
    user turn and an assistant turn; by something only for an event that
    sends. *)
Lemma handle_step (env : option string) (e : event) (c c' : State) :
  run (fst (handle env e c)) c = Some c' ->
  exists added,
    messages c' = messages c ++ added /\ added_by (sends [e]) added.
Proof.
  assert (S : forall net n,
            run (fst (V2.send env c net)) c = Some c' ->
            exists added,
              messages c' = messages c ++ added /\ added_by (S n) added).
  { intros net n Hr.
    destruct (V2_send_extends env c c' net Hr)
      as [-> | (_ & Ht & [M | [a M]])].
    - exists []. rewrite app_nil_r. split; [reflexivity|apply added_by_nil].
    - eexists. split; [exact M|].
      apply (added_by_app 1 n [_] []);
        [now apply added_by_user | apply added_by_nil].
    - eexists. split; [exact M|].
      apply (added_by_app 1 n [_; _] []);
        [now apply added_by_exchange | apply added_by_nil]. }
  intros Hr.
  destruct e as [value | key shiftKey net | net | net]; cbn [handle] in Hr.
  - cbn in Hr. injection Hr as <-. exists []. cbn. rewrite app_nil_r.
    split; [reflexivity | apply added_by_nil].
  - unfold onKeyDown in Hr. unfold sends. cbn [filter].
    destruct ((key =? "Enter") && negb shiftKey); cbn [snd] in Hr.
    + now apply (S net 0%nat).
    + cbn in Hr. injection Hr as <-. exists []. rewrite app_nil_r.
      split; [reflexivity | apply added_by_nil].
  - now apply (S net 0%nat).
  - revert Hr. unfold V2.health_probe, V2.fetchWithTimeout, fetch. cbn.
    destruct net as [[w x]|]; cbn;
      try destruct (timer_delay 15000 <=? w)%Z; cbn;
      try destruct (delivered x); cbn; intros [= <-]; cbn;
      exists []; rewrite app_nil_r; (split; [reflexivity | apply added_by_nil]).
Qed.

(** X15. Second variant: after any sequence of typing, key presses, clicks
    and health checks, from any render, the conversation is the old one
    followed by added messages.  These all have the role "user" or
    "assistant", every user turn has a text, there are no more assistant
    turns than user turns, and no more user turns than events that
    send. *)
Theorem session_keeps_exchanges (env : option string) (es : list event)
    (c s : State) :
  session env es c = Some s ->
  exists added,
    messages s = messages c ++ added /\
    Forall known_role added /\
    Forall (fun m => role m = "user" -> text m <> JStr "") added /\
    (turns_of "assistant" added <= turns_of "user" added)%nat /\
    (turns_of "user" added <= sends es)%nat.
Proof.
  change (session env es c = Some s ->
          exists added,
            messages s = messages c ++ added /\ added_by (sends es) added).
  revert c. induction es as [|e es IH]; intros c.
  - cbn [session]. intros [= <-]. exists []. rewrite app_nil_r.
    split; [reflexivity | apply added_by_nil].
  - cbn [session].
    destruct (run (fst (handle env e c)) c) as [c'|] eqn:Hr; [|discriminate].
    intros Hrest.
    destruct (handle_step env e c c' Hr) as (a1 & M1 & A1).
    destruct (IH c' Hrest) as (a2 & M2 & A2).
    exists (a1 ++ a2). rewrite M2, M1, <- app_assoc.
    split; [reflexivity|]. rewrite sends_cons. now apply added_by_app.
Qed.

Lemma known_roles_window (msgs : list Message) :
  Forall known_role msgs ->
  historyForServer msgs = slice (-10) msgs.
Proof.
  intros K. unfold historyForServer.
  assert (K' : Forall known_role (slice (-10) msgs)).
  { apply Forall_forall. intros m Hm. rewrite Forall_forall in K. apply K.
    unfold slice in Hm.
    rewrite <- (firstn_skipn
                  (Z.to_nat
                     (if (-10 <? 0)%Z
                      then Z.max (Z.of_nat (List.length msgs) + -10) 0
                      else Z.min (-10) (Z.of_nat (List.length msgs))))
                  msgs).
    apply in_or_app. right. exact Hm. }
  induction K' as [|m l Hm _ IH]; [reflexivity|].
  cbn [map]. now rewrite (known_role_kept m Hm), IH.
Qed.

(** X16. Second variant: in every state a session reaches from the first
    render, all roles are "user" or "assistant", so the history sent with
    the next request is just the last ten messages, unaltered. *)
Theorem session_history_is_last_ten (env : option string) (es : list event)
    (s : State) :
  session env es initial = Some s ->
  Forall known_role (messages s) /\
  historyForServer (messages s) = slice (-10) (messages s).
Proof.
  assert (G : forall c, Forall known_role (messages c) ->
              session env es c = Some s -> Forall known_role (messages s)).
  { induction es as [|e es IH]; intros c K.
    - cbn. now intros [= <-].
    - cbn [session].
      destruct (run (fst (handle env e c)) c) as [c'|] eqn:Hr; [|discriminate].
      destruct (handle_step env e c c' Hr) as (added & M & A & _).
      apply IH. rewrite M. apply Forall_app. split; assumption. }
  intros H.
  assert (K : Forall known_role (messages s)).
  { apply (G initial); trivial.
    constructor; [right; reflexivity | constructor]. }
  split; [exact K | now apply known_roles_window].
Qed.

(** ** What the classifiers ignore *)

Lemma lower_flip_case (c : ascii) : lower (flip_case c) = lower c.
Proof. destruct c as [[] [] [] [] [] [] [] []]; reflexivity. Qed.

Lemma same_letters_lower (a b : string) :
  same_letters a b -> toLowerCase a = toLowerCase b.
Proof.
  induction 1 as [|c d s t [-> | ->] _ IH]; cbn; [reflexivity| |].
  - now rewrite IH.
  - now rewrite IH, lower_flip_case.
Qed.

(** X17. The classifiers ignore the case of ASCII letters: two inputs that
    differ only in letter case are classified alike. *)
Theorem classifiers_ignore_case (a b : string) :
  same_letters a b ->
  isCreatorQuestion a = isCreatorQuestion b /\
  isNameQuestion a = isNameQuestion b.
Proof.
  intros H. apply same_letters_lower in H.
  unfold isCreatorQuestion, isNameQuestion, normalize. now rewrite H.
Qed.

Lemma toLowerCase_app (a b : string) :
  toLowerCase (a ++ b) = (toLowerCase a ++ toLowerCase b)%string.
Proof.
  induction a as [|c a IH]; [reflexivity|].
  change (String (lower c) (toLowerCase (a ++ b)%string) =
          String (lower c) (toLowerCase a ++ toLowerCase b)%string).
  now rewrite IH.
Qed.

Lemma prefix_app (p b : string) : prefix p (p ++ b) = true.
Proof.
  induction p as [|c p IH]; [destruct b; reflexivity|].
  change (prefix (String c p) (String c (p ++ b)%string) = true).
  cbn. destruct (ascii_dec c c) as [_|N]; [exact IH|now elim N].
Qed.

Lemma prefix_split (p s : string) :
  prefix p s = true -> exists b, s = (p ++ b)%string.
Proof.
  revert s. induction p as [|c p IH]; intros s.
  - exists s. reflexivity.
  - destruct s as [|d s]; cbn; [discriminate|].
    destruct (ascii_dec c d) as [->|_]; [|discriminate].
    intros H. destruct (IH s H) as [b ->]. exists b. reflexivity.
Qed.

Lemma includes_cons (c : ascii) (s p : string) :
  includes (String c s) p = prefix p (String c s) || includes s p.
Proof. reflexivity. Qed.

Lemma includes_prefix (s p : string) :
  prefix p s = true -> includes s p = true.
Proof. destruct s; cbn; intros ->; reflexivity. Qed.

Lemma includes_app (a p b : string) : includes (a ++ p ++ b) p = true.
Proof.
  induction a as [|c a IH].
  - change (includes (p ++ b) p = true).
    apply includes_prefix, prefix_app.
  - change (includes (String c (a ++ p ++ b)%string) p = true).
    rewrite includes_cons, IH. apply orb_true_r.
Qed.

Lemma includes_split (s p : string) :
  includes s p = true -> exists a b, s = (a ++ p ++ b)%string.
Proof.
  induction s as [|c s IH].
  - destruct p; cbn; [|discriminate]. intros _. exists "", "". reflexivity.
  - rewrite includes_cons. intros H. apply orb_true_iff in H.
    destruct H as [H|H].
    + destruct (prefix_split _ _ H) as [b E]. exists "", b. exact E.
    + destruct (IH H) as (a & b & ->). exists (String c a), b. reflexivity.
Qed.

Lemma append_assoc (a b c : string) :
  ((a ++ b) ++ c)%string = (a ++ b ++ c)%string.
Proof.
  induction a as [|x a IH]; [reflexivity|].
  change (String x ((a ++ b) ++ c)%string = String x (a ++ b ++ c)%string).
  now rewrite IH.
Qed.

Lemma includes_reverse (s p : string) :
  includes s p = true -> includes (reverse s) (reverse p) = true.
Proof.
  intros H. destruct (includes_split s p H) as (a & b & ->).
  rewrite !reverse_app, append_assoc. apply includes_app.
Qed.

Lemma drop_keeps (w s p : string) (c : ascii) :
  forallb (fun x => negb (Ascii.eqb x c)) (list_ascii_of_string w) = true ->
  prefix w s = true ->
  includes s (String c p) = true ->
  includes (drop (String.length w) s) (String c p) = true.
Proof.
  revert s. induction w as [|x w IH]; intros s Hc Hp Hi.
  - destruct s; exact Hi.
  - destruct s as [|y s]; [discriminate|].
    cbn in Hc. apply andb_true_iff in Hc. destruct Hc as [Hx Hc].
    cbn in Hp. destruct (ascii_dec x y) as [<-|_]; [|discriminate].
    rewrite includes_cons in Hi. apply orb_true_iff in Hi.
    destruct Hi as [Hi|Hi].
    + cbn in Hi. destruct (ascii_dec c x) as [->|_]; [|discriminate].
      rewrite Ascii.eqb_refl in Hx. discriminate.
    + cbn [String.length drop]. now apply IH.
Qed.

Lemma strip_keeps (ws : list string) (s r p : string) (c : ascii) :
  clear_of ws c = true ->
  strip ws s = Some r ->
  includes s (String c p) = true ->
  includes r (String c p) = true.
Proof.
  induction ws as [|w ws IH]; cbn; [discriminate|].
  intros Hc. apply andb_true_iff in Hc. destruct Hc as [Hw Hc].
  destruct (prefix w s) eqn:Hp.
  - intros [= <-]. now apply drop_keeps.
  - now apply IH.
Qed.

Lemma trim_from_keeps (ws : list string) (fuel : nat) (s p : string)
    (c : ascii) :
  clear_of ws c = true ->
  includes s (String c p) = true ->
  includes (trim_from ws fuel s) (String c p) = true.
Proof.
  intros Hc. revert s. induction fuel as [|k IH]; intros s Hi; [exact Hi|].
  cbn. destruct (strip ws s) as [r|] eqn:E; [|exact Hi].
  apply IH. now apply (strip_keeps ws s r p c).
Qed.

(** Trimming keeps a phrase whose first and last characters are in no
    whitespace character. *)
Lemma trim_keeps (s p q : string) (c d : ascii) :
  clear_of white_space c = true ->
  clear_of (map reverse white_space) d = true ->
  reverse (String c p) = String d q ->
  includes s (String c p) = true ->
  includes (trim s) (String c p) = true.
Proof.
  intros Hc Hd Hr Hi. unfold trim, trimEnd, trimStart.
  rewrite <- (reverse_involutive (String c p)), Hr.
  apply includes_reverse. apply trim_from_keeps; [exact Hd|].
  rewrite <- Hr. apply includes_reverse. now apply trim_from_keeps.
Qed.

Lemma phrase_found (a q b p : string) :
  toLowerCase q = p ->
  In p (creator_patterns ++ name_patterns) ->
  includes (normalize (a ++ q ++ b)) p = true.
Proof.
  intros Hq Hp. unfold normalize. rewrite !toLowerCase_app, Hq.
  pose proof (includes_app (toLowerCase a) p (toLowerCase b)) as Hi.
  revert Hi. generalize (toLowerCase a ++ p ++ toLowerCase b)%string as s.
  intros s Hi. cbn in Hp.
  repeat (destruct Hp as [<- | Hp];
          [eapply trim_keeps;
           [reflexivity | | reflexivity | exact Hi]; reflexivity|]).
  destruct Hp.
Qed.

(** X18. A phrase of a classifier is found wherever it stands and in any
    letter case: an input made of any text, a phrase that lower-cases to a
    Creator substring, and any text is a Creator question, and likewise
    for the Identity substrings. *)
Theorem classifiers_find_embedded_phrase (a q b : string) :
  (In (toLowerCase q) creator_patterns ->
   isCreatorQuestion (a ++ q ++ b) = true) /\
  (In (toLowerCase q) name_patterns ->
   isNameQuestion (a ++ q ++ b) = true).
Proof.
  split; intros H.
  - rewrite isCreatorQuestion_patterns. apply existsb_exists.
    exists (toLowerCase q). split; [exact H|].
    apply phrase_found; [reflexivity|]. apply in_or_app. now left.
  - rewrite isNameQuestion_patterns. apply orb_true_iff. left.
    apply existsb_exists.
    exists (toLowerCase q). split; [exact H|].
    apply phrase_found; [reflexivity|]. apply in_or_app. now right.
Qed.

(** ** Requests per send, and the two variants side by side *)

(** X19. A send makes at most one request and never retries: in both
    variants, whatever the network does, exactly one request is issued on
    a render that goes to the network and none otherwise; the second
    variant starts exactly one timer of 45000 ms for it. *)
Theorem send_requests_at_most_once (env : option string) (c : State)
    (net : Network) :
  (goes_remote c = true ->
   requests (fst (V1.send c net)) = [V1_chat_request c] /\
   requests (fst (V2.send env c net)) = [chat_request env c] /\
   timers (fst (V2.send env c net)) = [45000%Z]) /\
  (goes_remote c = false ->
   requests (fst (V1.send c net)) = [] /\
   requests (fst (V2.send env c net)) = []).
Proof.
  split; intros R.
  - split; [|split].
    + rewrite (V1_send_remote c net R). cbv zeta.
      destruct net as [[w [r| |st]]|]; [destruct (json_body r)|..];
        reflexivity.
    + destruct (body_never_arrives net) eqn:B.
      * rewrite (V2_send_stalled env c net R B). reflexivity.
      * destruct (V2_send_remote env c net R B) as (out & Ho & ->). cbn [fst].
        rewrite requests_app, requests_app, (outcome_requests net out Ho).
        reflexivity.
    + destruct (body_never_arrives net) eqn:B.
      * rewrite (V2_send_stalled env c net R B). reflexivity.
      * destruct (V2_send_remote env c net R B) as (out & Ho & ->). cbn [fst].
        destruct Ho; reflexivity.
  - unfold V1.send, V2.send.
    destruct (not_remote_cases c R) as [G | [G K]]; rewrite G.
    + split; reflexivity.
    + destruct (isCreatorQuestion (trim (input c))); [split; reflexivity|].
      destruct (isNameQuestion (trim (input c))); [split; reflexivity|].
      destruct K; discriminate.
Qed.

(** X20. The two variants agree on an ordinary answer: for a response
    that arrives in time with a success status, no truthy error field and
    a truthy reply, both leave the same conversation, online and idle.
    They differ on an empty reply, which the first shows empty and the
    second replaces by "No reply.". *)
Theorem variants_agree_on_reply (env : option string) (c : State)
    (w : Z) (r : Response) (data : value) :
  goes_remote c = true ->
  (w < 45000)%Z -> ok r = true -> json_body r = Some data ->
  truthy (get data "error") = false ->
  (truthy (get data "reply") = true ->
   run (fst (V1.send c (Some (w, Resolved r)))) c =
   run (fst (V2.send env c (Some (w, Resolved r)))) c /\
   run (fst (V2.send env c (Some (w, Resolved r)))) c =
   Some {| online := true; input := ""; sending := false;
           messages := messages c ++ [user (trim (input c));
                                      assistant (get data "reply")] |}) /\
  (get data "reply" = JStr "" ->
   run (fst (V1.send c (Some (w, Resolved r)))) c =
   Some {| online := true; input := ""; sending := false;
           messages := messages c ++ [user (trim (input c));
                                      assistant (JStr "")] |} /\
   run (fst (V2.send env c (Some (w, Resolved r)))) c =
   Some {| online := true; input := ""; sending := false;
           messages := messages c ++ [user (trim (input c));
                                      assistant (JStr V2.no_reply_text)] |}).
Proof.
  intros H L Hok J E. split.
  - intros T.
    assert (R2 : run (fst (V2.send env c (Some (w, Resolved r)))) c =
                 Some {| online := true; input := ""; sending := false;
                         messages := messages c ++
                           [user (trim (input c));
                            assistant (get data "reply")] |}).
    { apply (V2_run_outcome env c _
               [SetMessages (Some (assistant (get data "reply")));
                SetOnline true]); trivial.
      intros out' Ho. rewrite (outcome_of_response w r out' L Ho), Hok.
      unfold usable_reply, parsed. now rewrite J, T. }
    split; [|exact R2]. rewrite R2.
    apply (V1_run_parsed c w r data _ H J). rewrite E.
    rewrite (truthy_get_member _ _ T). cbn [option_map].
    destruct (get data "reply"); try discriminate; reflexivity.
  - intros R. split.
    + apply (V1_run_parsed c w r data _ H J). rewrite E.
      destruct data; try discriminate. cbn [member option_map].
      now rewrite R.
    + apply (V2_run_outcome env c _
               [SetMessages (Some (assistant (JStr V2.no_reply_text)));
                SetOnline true]); trivial.
      intros out' Ho. rewrite (outcome_of_response w r out' L Ho), Hok.
      unfold usable_reply. now rewrite J, R.
Qed.

End Further.

(** * The properties on example renders *)

#[local] Existing Instance integers.

Example trim_strips_unicode_space :
  trim (utf8 [32; 194; 160; 104; 105; 32; 226; 128; 168; 10]) = "hi".
Proof. reflexivity. Qed.

Example classifier_ignores_case :
  isCreatorQuestion "  Who MADE you?  " = true /\
  isNameQuestion "NAME" = true /\
  isNameQuestion "names" = false.
Proof. repeat split. Qed.

(** "hello" answered with HTTP 200 and a reply. *)
Example scenario_reply :
  run (fst (V2.send None hello (replied 200 (JObj [("reply", JStr "Hi there!")]))))
    hello =
  Some {| online := true; input := ""; sending := false;
          messages := messages hello ++ [user "hello";
                                         assistant (JStr "Hi there!")] |}.
Proof. vm_compute. reflexivity. Qed.

(** "hello" answered with HTTP 500 and an error field. *)
Example scenario_server_error :
  run (fst (V2.send None hello (replied 500 (JObj [("error", JStr "db down")]))))
    hello =
  Some {| online := false; input := ""; sending := false;
          messages := messages hello ++ [user "hello";
                                         assistant (JStr "âŒ db down")] |}.
Proof. vm_compute. reflexivity. Qed.

(** An error payload without a string conversion: the handler still makes
    its two calls of [setMessages] and releases the send state, but the
    second updater raises and the render fails. *)
Example unprintable_error_fails_render :
  let r := V2.send None hello
             (replied 500 (JObj [("error", JObj [("toString", JNull)])])) in
  snd r = Normal tt /\
  appended (fst r) = [Some (user "hello"); None] /\
  sendings (fst r) = [true; false] /\
  run (fst r) hello = None.
Proof. vm_compute. repeat split. Qed.

(** First variant, body [null]: [data.reply] raises inside the updater, so
    [setOnline(true)] is still called and it is the render that fails. *)
Example V1_null_body_fails_render :
  let r := V1.send hello (replied 200 JNull) in
  snd r = Normal tt /\
  appended (fst r) = [Some (user "hello"); None] /\
  onlines (fst r) = [true] /\
  run (fst r) hello = None.
Proof. vm_compute. repeat split. Qed.

(** First variant, a request that never settles: the handler stays
    suspended with the send state taken. *)
Example V1_unbounded_request_hangs :
  let r := V1.send hello None in
  snd r = Pending /\
  sendings (fst r) = [true] /\
  exists s, run (fst r) hello = Some s /\ sending s = true.
Proof. vm_compute. repeat split. eexists. split; reflexivity. Qed.

(** A delay beyond 32 bits: 3000000000 is taken as a negative delay, so
    the timer fires at once and the request is aborted. *)
Example oversized_delay_fires_at_once :
  timer_delay 3000000000 = 0%Z /\
  snd (V2.fetchWithTimeout (replied 200 JNull) "/api/chat"
         {| method := "POST"; headers := []; body := None; signal := None |}
         3000000000) = Throw AbortError.
Proof. vm_compute. split; reflexivity. Qed.

(** First variant, headers whose body never arrives: the handler stays
    suspended at [r.json()], as on a request that is never answered. *)
Example V1_stalled_body_hangs :
  V1.send hello headers_only = V1.send hello None.
Proof. reflexivity. Qed.

Example health_probe_times_out :
  V2.health_probe None None =
  ([SetTimeout 15000;
    Fetch "https://esita-chatbot.onrender.com/health"
      {| method := "GET"; headers := []; body := None;
         signal := Some 15000%Z |};
    ClearTimeout; SetOnline false], Normal tt).
Proof. reflexivity. Qed.

(** C1 on " Who made you? " and on "What is your name?", typed into the first render. *)
Lemma canned_reply_is_local_witness :
  (local_reply (typed " Who made you? ") V1.creator_text
     (V1.send (typed " Who made you? ") None) /\
   local_reply (typed " Who made you? ") V2.creator_text
     (V2.send None (typed " Who made you? ") None)) /\
  (local_reply (typed "What is your name?") V1.identity_text
     (V1.send (typed "What is your name?") None) /\
   local_reply (typed "What is your name?") V2.identity_text
     (V2.send None (typed "What is your name?") None)).
Proof.
  split.
  - apply (canned_reply_is_local None (typed " Who made you? ") None);
      reflexivity.
  - apply (canned_reply_is_local None (typed "What is your name?") None);
      reflexivity.
Defined.

(** C8 on an input of two spaces. *)
Lemma skipped_send_is_silent_witness :
  V2.send None (typed "  ") None = ([], Normal tt) /\
  V1.send (typed "  ") None = ([], Normal tt).
Proof.
  apply (skipped_send_is_silent None (typed "  ") None).
  left. reflexivity.
Defined.

(** C9 fails as stated: "who made you, what is your name" matches both
    classifiers. *)
Lemma both_classifiers_match :
  isCreatorQuestion "who made you, what is your name" = true /\
  isNameQuestion "who made you, what is your name" = true /\
  ~ (forall msg, ~ (isCreatorQuestion msg = true /\ isNameQuestion msg = true)).
Proof.
  assert (B : isCreatorQuestion "who made you, what is your name" = true /\
              isNameQuestion "who made you, what is your name" = true)
    by (split; reflexivity).
  split; [apply B|]. split; [apply B|].
  intros N. exact (N _ B).
Qed.

(** C9 on the input that matches both classifiers. *)
Lemma creator_checked_first_witness :
  local_reply (typed "who made you, what is your name") V1.creator_text
    (V1.send (typed "who made you, what is your name") None) /\
  local_reply (typed "who made you, what is your name") V2.creator_text
    (V2.send None (typed "who made you, what is your name") None).
Proof.
  apply (creator_checked_first None
           (typed "who made you, what is your name") None);
    reflexivity.
Defined.

(** C2 fails as stated: when the request for "hello" times out, [send]
    appends the user turn and one assistant error message, and the
    conversation of length 1 ends at length 3, not 2. *)
Lemma timeout_leaves_two_more :
  exists s,
    run (fst (V2.send None hello None)) hello = Some s /\
    messages s = messages hello ++ [user "hello";
                                    assistant (JStr V2.timeout_text)] /\
    List.length (messages s) = (List.length (messages hello) + 2)%nat /\
    List.length (messages s) <> (List.length (messages hello) + 1)%nat.
Proof.
  eexists. split; [vm_compute; reflexivity|].
  repeat split. vm_compute. discriminate.
Qed.

(** C2 on "hello": answered with HTTP 200 and a reply, and answered with
    headers whose body never arrives. *)
Lemma remote_send_appends_two_witness :
  (exists a,
     appended (fst (V2.send None hello
                      (replied 200 (JObj [("reply", JStr "Hi there!")])))) =
     [Some (user "hello"); option_map assistant a]) /\
  (snd (V2.send None hello headers_only) = Pending /\
   appended (fst (V2.send None hello headers_only)) = [Some (user "hello")]).
Proof.
  split.
  - apply (proj1 (remote_send_appends_two None hello
                    (replied 200 (JObj [("reply", JStr "Hi there!")])) eq_refl)
             eq_refl).
  - destruct (proj2 (remote_send_appends_two None hello headers_only eq_refl)
                eq_refl) as (P & A & _).
    split; [exact P | exact A].
Defined.

(** C4 fails as stated: the request for "hello" from the first render
    carries the greeting alone as history; the user turn is not in it, and
    the history is not the window over the conversation with that turn. *)
Lemma history_omits_current_turn :
  exists url o b,
    requests (fst (V2.send None hello None)) = [(url, o)] /\
    body o = Some b /\
    message b = "hello" /\
    history b = messages initial /\
    ~ In (user "hello") (history b) /\
    history b <> historyForServer (messages hello ++ [user "hello"]).
Proof.
  do 3 eexists. split; [vm_compute; reflexivity|]. split; [reflexivity|].
  repeat split.
  - vm_compute. intros [N|[]]. discriminate.
  - vm_compute. discriminate.
Qed.

(** C4 on "hello" typed into the first render. *)
Lemma history_is_of_the_render_witness :
  exists url o,
    requests (fst (V2.send None hello None)) = [(url, o)] /\
    body o = Some {| message := "hello";
                     history := historyForServer (messages hello) |}.
Proof.
  destruct (history_is_of_the_render None hello None eq_refl)
    as (url & o & R & B & _).
  exists url, o. split; [exact R | exact B].
Defined.

(** C5 fails as stated: when "hello" is answered with headers in time
    and the body never arrives, the timer is already cleared and [send]
    stays suspended at [r.json()]; [setSending] was called with [true]
    only and the state stays sending, with the user turn alone. *)
Lemma stalled_body_keeps_sending :
  snd (V2.send None hello headers_only) = Pending /\
  fst (V2.send None hello headers_only) =
    [SetMessages (Some (user "hello")); SetInput ""; SetSending true;
     SetTimeout 45000;
     Fetch "https://esita-chatbot.onrender.com/api/chat"
       {| method := "POST";
          headers := [("Content-Type", "application/json")];
          body := Some {| message := "hello"; history := messages initial |};
          signal := Some 45000%Z |};
     ClearTimeout] /\
  sendings (fst (V2.send None hello headers_only)) = [true] /\
  run (fst (V2.send None hello headers_only)) hello =
    Some {| online := true; input := ""; sending := true;
            messages := messages hello ++ [user "hello"] |}.
Proof. vm_compute. repeat split. Qed.

(** C5 on "hello": answered with HTTP 500, and answered with headers whose
    body never arrives. *)
Lemma send_state_released_once_witness :
  sendings (fst (V2.send None hello
                   (replied 500 (JObj [("error", JStr "db down")]))))
  = [true; false] /\
  (snd (V2.send None hello headers_only) = Pending /\
   sendings (fst (V2.send None hello headers_only)) = [true]).
Proof.
  split.
  - apply (proj1 (send_state_released_once None hello
                    (replied 500 (JObj [("error", JStr "db down")])) eq_refl)
             eq_refl).
  - destruct (proj2 (send_state_released_once None hello headers_only eq_refl)
                eq_refl) as (_ & P & S & _).
    split; [exact P | exact S].
Defined.

(** C6 on "hello": a request that never settles, and one that fails after 30 ms. *)
Lemma timeout_is_distinguished_witness :
  (exists s, run (fst (V2.send None hello None)) hello = Some s /\
             messages s = messages hello ++ [user "hello";
                                             assistant (JStr V2.timeout_text)] /\
             online s = false) /\
  (exists s, run (fst (V2.send None hello (Some (30%Z, Rejected)))) hello = Some s /\
             messages s = messages hello ++ [user "hello";
                                             assistant (JStr V2.connection_text)] /\
             online s = false).
Proof.
  split.
  - apply (timeout_is_distinguished None hello None); reflexivity.
  - apply (proj1 (proj2 (timeout_is_distinguished None hello
                            (Some (30%Z, Rejected)) eq_refl)) 30%Z);
      reflexivity.
Defined.

(** C7 on "hello" answered with HTTP 200 and an empty reply field. *)
Lemma empty_reply_keeps_online_witness :
  exists s,
    run (fst (V2.send None hello (replied 200 (JObj [("reply", JStr "")])))) hello
    = Some s /\
    messages s = messages hello ++ [user "hello"; assistant (JStr "No reply.")] /\
    online s = true.
Proof.
  apply (empty_reply_keeps_online None hello 100
           {| status := 200; json_body := Some (JObj [("reply", JStr "")]) |});
    reflexivity.
Defined.

(** C10 on "hello" answered with HTTP 500 and an error field. *)
Lemma V1_parsed_response_sets_online_witness :
  onlines (fst (V1.send hello (replied 500 (JObj [("error", JStr "db down")]))))
  = [true] /\
  forall s,
    run (fst (V1.send hello (replied 500 (JObj [("error", JStr "db down")]))))
      hello = Some s ->
    online s = true.
Proof.
  destruct (proj2 (V1_parsed_response_sets_online hello eq_refl) 100%Z
              {| status := 500;
                 json_body := Some (JObj [("error", JStr "db down")]) |}
              (JObj [("error", JStr "db down")]) eq_refl)
    as (_ & O & S & _).
  split; [exact O | exact S].
Defined.

(** ** The further properties on example renders *)

(** X2 on the chat delay: a response after 100 ms, and one whose headers
    come after 50000 ms. *)
Lemma fetchWithTimeout_result_witness :
  snd (V2.fetchWithTimeout (replied 200 JNull) "/api/chat"
         {| method := "POST"; headers := []; body := None; signal := None |}
         45000) = Normal (answer 200 JNull) /\
  snd (V2.fetchWithTimeout (Some (50000%Z, Stalled 200)) "/api/chat"
         {| method := "POST"; headers := []; body := None; signal := None |}
         45000) = Throw AbortError.
Proof.
  split.
  - apply (fetchWithTimeout_result (replied 200 JNull) "/api/chat"
             {| method := "POST"; headers := []; body := None; signal := None |}
             45000); [lia|].
    exists 100%Z, (Resolved (answer 200 JNull)). repeat split.
  - apply (fetchWithTimeout_result (Some (50000%Z, Stalled 200)) "/api/chat"
             {| method := "POST"; headers := []; body := None; signal := None |}
             45000); [lia|].
    reflexivity.
Defined.

(** X4 on a configured address with and without a trailing slash. *)
Lemma API_BASE_strips_one_slash_witness :
  V2.API_BASE (Some "http://localhost:8000/") = "http://localhost:8000" /\
  V2.API_BASE (Some "http://localhost:8000") = "http://localhost:8000".
Proof.
  destruct API_BASE_strips_one_slash as (_ & S & K & _). split.
  - apply (S "http://localhost:8000"). discriminate.
  - apply (K "http://localhost:8000"); [discriminate|].
    intros v E. apply (f_equal reverse) in E. rewrite reverse_app in E.
    vm_compute in E. discriminate.
Defined.

(** X5 on "hello" typed into the first render. *)
Lemma V1_unanswered_request_keeps_sending_witness :
  snd (V1.send hello None) = Pending /\
  sendings (fst (V1.send hello None)) = [true].
Proof.
  destruct (V1_unanswered_request_keeps_sending hello eq_refl)
    as (P & S & _).
  split; [exact P | exact S].
Defined.

(** X6 on the same body under status 200 and status 500. *)
Lemma V1_ignores_status_and_delay_witness :
  V1.send hello (Some (10%Z, Resolved (answer 200 (JObj [("reply", JStr "Hi")])))) =
  V1.send hello (Some (99999%Z, Resolved (answer 500 (JObj [("reply", JStr "Hi")])))).
Proof.
  apply V1_ignores_status_and_delay. reflexivity.
Defined.

(** X7 on "hello" with a request that fails, and with a body that is not
    JSON. *)
Lemma V1_failure_is_connection_error_witness :
  run (fst (V1.send hello (Some (30%Z, Rejected)))) hello =
  Some {| online := false; input := ""; sending := false;
          messages := messages hello ++
                      [user (trim (input hello));
                       assistant (JStr V1.connection_text)] |} /\
  run (fst (V1.send hello
              (Some (30%Z, Resolved {| status := 200; json_body := None |}))))
    hello =
  Some {| online := false; input := ""; sending := false;
          messages := messages hello ++
                      [user (trim (input hello));
                       assistant (JStr V1.connection_text)] |}.
Proof.
  split.
  - apply (V1_failure_is_connection_error hello (Some (30%Z, Rejected)) eq_refl).
    left. exists 30%Z. reflexivity.
  - apply (V1_failure_is_connection_error hello
             (Some (30%Z, Resolved {| status := 200; json_body := None |}))
             eq_refl).
    right. exists 30%Z, {| status := 200; json_body := None |}.
    split; reflexivity.
Defined.

(** X8 on "hello" answered with an error field, and with an empty reply. *)
Lemma V1_response_display_witness :
  run (fst (V1.send hello (replied 500 (JObj [("error", JStr "db down")]))))
    hello =
  Some {| online := true; input := ""; sending := false;
          messages := messages hello ++
                      [user (trim (input hello));
                       assistant (JStr "❌ db down")] |} /\
  run (fst (V1.send hello (replied 200 (JObj [("reply", JStr "")])))) hello =
  Some {| online := true; input := ""; sending := false;
          messages := messages hello ++
                      [user (trim (input hello)); assistant (JStr "")] |}.
Proof.
  split.
  - apply (proj1 (V1_response_display hello 100
                    (answer 500 (JObj [("error", JStr "db down")]))
                    (JObj [("error", JStr "db down")]) eq_refl eq_refl)
             eq_refl "db down" eq_refl).
  - apply (proj1 (proj2 (proj2 (V1_response_display hello 100
                    (answer 200 (JObj [("reply", JStr "")]))
                    (JObj [("reply", JStr "")]) eq_refl eq_refl)))
             eq_refl eq_refl).
Defined.

(** X9 on "hello" answered with HTTP 200 and a reply. *)
Lemma V2_reply_shown_verbatim_witness :
  run (fst (V2.send None hello (replied 200 (JObj [("reply", JStr "Hi there!")]))))
    hello =
  Some {| online := true; input := ""; sending := false;
          messages := messages hello ++
                      [user (trim (input hello));
                       assistant (JStr "Hi there!")] |}.
Proof.
  apply (V2_reply_shown_verbatim None hello 100
           (answer 200 (JObj [("reply", JStr "Hi there!")])));
    reflexivity.
Defined.

(** X10 on "hello" answered with HTTP 500: with an error field, and with a
    body that is not JSON. *)
Lemma V2_failure_text_witness :
  run (fst (V2.send None hello (replied 500 (JObj [("error", JStr "db down")]))))
    hello =
  Some {| online := false; input := ""; sending := false;
          messages := messages hello ++
                      [user (trim (input hello));
                       assistant (JStr "âŒ db down")] |} /\
  run (fst (V2.send None hello
              (Some (100%Z, Resolved {| status := 502; json_body := None |}))))
    hello =
  Some {| online := false; input := ""; sending := false;
          messages := messages hello ++
                      [user (trim (input hello));
                       assistant (JStr "âŒ HTTP 502")] |}.
Proof.
  split.
  - apply (proj1 (proj2 (V2_failure_text None hello 100
                           (answer 500 (JObj [("error", JStr "db down")]))
                           eq_refl eq_refl eq_refl))
             "db down"); reflexivity.
  - apply (proj2 (proj2 (proj2 (V2_failure_text None hello 100
                           {| status := 502; json_body := None |}
                           eq_refl eq_refl eq_refl)))).
    reflexivity.
Defined.

(** X11 on a Creator question and on an empty input. *)
Lemma local_send_touches_no_network_witness :
  onlines (fst (V2.send None (typed " Who made you? ") None)) = [] /\
  requests (fst (V1.send (typed "") None)) = [].
Proof.
  split.
  - apply (local_send_touches_no_network None (typed " Who made you? ") None).
    reflexivity.
  - apply (local_send_touches_no_network None (typed "") None).
    reflexivity.
Defined.


(** X13 on the conversation of the first render. *)
Lemma history_view_stable_witness :
  historyForServer (messages initial) = messages initial.
Proof.
  apply (history_view_stable (messages initial)).
  - cbn. lia.
  - constructor; [right; reflexivity | constructor].
Defined.

(** X15 on the example session. *)
Lemma session_keeps_exchanges_witness :
  session None example_session initial = Some example_session_end /\
  exists added,
    messages example_session_end = messages initial ++ added /\
    Forall known_role added /\
    Forall (fun m => role m = "user" -> text m <> JStr "") added /\
    (turns_of "assistant" added <= turns_of "user" added)%nat /\
    (turns_of "user" added <= sends example_session)%nat.
Proof.
  assert (E : session None example_session initial = Some example_session_end)
    by (vm_compute; reflexivity).
  split; [exact E|].
  exact (session_keeps_exchanges None example_session initial
           example_session_end E).
Defined.

(** X16 on the example session. *)
Lemma session_history_is_last_ten_witness :
  historyForServer (messages example_session_end) =
  slice (-10) (messages example_session_end).
Proof.
  apply (session_history_is_last_ten None example_session example_session_end).
  vm_compute. reflexivity.
Defined.

(** X17 on two spellings of a Creator question. *)
Lemma classifiers_ignore_case_witness :
  isCreatorQuestion "Who Made You" = isCreatorQuestion "wHO mADE yOU".
Proof.
  apply (classifiers_ignore_case "Who Made You" "wHO mADE yOU").
  repeat (apply same_next;
          [first [left; reflexivity | right; reflexivity]|]).
  apply same_empty.
Defined.

(** X18 on phrases in the middle of a longer input. *)
Lemma classifiers_find_embedded_phrase_witness :
  isCreatorQuestion ("hey, " ++ "WHO BUILT YOU" ++ "??") = true /\
  isNameQuestion ("so " ++ "Who Are You" ++ " really") = true.
Proof.
  split.
  - apply (classifiers_find_embedded_phrase "hey, " "WHO BUILT YOU" "??").
    vm_compute. tauto.
  - apply (classifiers_find_embedded_phrase "so " "Who Are You" " really").
    vm_compute. tauto.
Defined.

(** X19 on "hello" and on a Creator question. *)
Lemma send_requests_at_most_once_witness :
  timers (fst (V2.send None hello None)) = [45000%Z] /\
  requests (fst (V2.send None (typed " Who made you? ") None)) = [].
Proof.
  split.
  - apply (proj1 (send_requests_at_most_once None hello None) eq_refl).
  - apply (proj2 (send_requests_at_most_once None (typed " Who made you? ") None)
             eq_refl).
Defined.

(** X20 on "hello" answered with a reply, and with an empty reply. *)
Lemma variants_agree_on_reply_witness :
  run (fst (V1.send hello (replied 200 (JObj [("reply", JStr "Hi there!")]))))
    hello =
  run (fst (V2.send None hello (replied 200 (JObj [("reply", JStr "Hi there!")]))))
    hello /\
  run (fst (V2.send None hello (replied 200 (JObj [("reply", JStr "")])))) hello =
  Some {| online := true; input := ""; sending := false;
          messages := messages hello ++
                      [user (trim (input hello));
                       assistant (JStr V2.no_reply_text)] |}.
Proof.
  split.
  - apply (proj1 (variants_agree_on_reply None hello 100
                    (answer 200 (JObj [("reply", JStr "Hi there!")]))
                    (JObj [("reply", JStr "Hi there!")])
                    eq_refl eq_refl eq_refl eq_refl eq_refl) eq_refl).
  - apply (proj2 (variants_agree_on_reply None hello 100
                    (answer 200 (JObj [("reply", JStr "")]))
                    (JObj [("reply", JStr "")])
                    eq_refl eq_refl eq_refl eq_refl eq_refl) eq_refl).
Defined.
